(** * MEMS_serial_device: a shallow embedding of the MEMS mirror driver session

    The Python class [MEMS_device] of [src/MEMS_serial_device.py] is embedded
    as a state-and-exception monad over a record that holds the attributes
    the methods read and write.  Python values appear as an inductive type,
    text as lists of code points, [bytes] as lists of 8-bit characters; the
    codecs the source calls ([bytes(cmd, 'ascii')] and [bytes.decode()]) are
    written out, including the inputs on which they raise. *)

From Stdlib Require Import ZArith NArith List Bool Lia.
From Stdlib Require Import Ascii String DecimalString.
From Stdlib Require Import Floats.SpecFloat.
Import ListNotations.

Local Open Scope Z_scope.

(* ================================================================== *)
(** ** Text and bytes *)

(** A Python [str] is a sequence of code points, a [bytes] object a sequence
    of octets. *)
Definition str := list N.
Definition bytes := list ascii.

Definition CR : ascii := "013"%char.
Definition LF : ascii := "010"%char.
Definition CRLF : string := String CR (String LF EmptyString).
Definition LFCR : string := String LF (String CR EmptyString).

(** [bytes_of "..."] and [str_of "..."] read a literal of the source as
    bytes and as text. *)
Definition bytes_of (lit : string) : bytes := list_ascii_of_string lit.
Definition str_of (lit : string) : str :=
  map N_of_ascii (list_ascii_of_string lit).

Definition str_eqb (u v : str) : bool :=
  if list_eq_dec N.eq_dec u v then true else false.
Definition bytes_eqb (u v : bytes) : bool :=
  if list_eq_dec ascii_dec u v then true else false.

(** Slices and indexing from the end, as Python evaluates them:
    [l[-k:]], [l[:-k]] and [l[-1]]. *)
Definition last_slice {A} (k : nat) (l : list A) : list A :=
  skipn (List.length l - k) l.
Definition drop_last {A} (k : nat) (l : list A) : list A :=
  firstn (List.length l - k) l.

(** Exceptions the modelled code can raise. *)
Inductive Exn : Type :=
  | IndexError
  | UnicodeEncodeError
  | UnicodeDecodeError.

Inductive Res (A : Type) : Type :=
  | Return (a : A)
  | Raise (e : Exn).
Arguments Return {A} a.
Arguments Raise {A} e.

Definition res_bind {A B} (r : Res A) (k : A -> Res B) : Res B :=
  match r with
  | Return a => k a
  | Raise e => Raise e
  end.

Definition last_item (l : str) : Res N :=
  match l with
  | [] => Raise IndexError
  | c :: l' => Return (last l' c)
  end.

(** *** Codecs *)

Definition is_ascii (c : N) : bool := (c <? 128)%N.

(** [bytes(cmd, 'ascii')]: every code point must be below 128. *)
Definition encode_ascii (u : str) : Res bytes :=
  if forallb is_ascii u then Return (map ascii_of_N u)
  else Raise UnicodeEncodeError.

(** [bytes.decode()]: strict UTF-8, the well-formed byte sequences of the
    Unicode standard (no overlong forms, no surrogates, nothing above
    U+10FFFF). *)
Definition in_range (lo hi x : N) : bool := ((lo <=? x) && (x <=? hi))%N.
Definition cont (x : N) : bool := in_range 128 191 x.

Definition is2 (b1 b2 : N) : bool := in_range 194 223 b1 && cont b2.
Definition is3 (b1 b2 b3 : N) : bool :=
  ((b1 =? 224)%N && in_range 160 191 b2 && cont b3)
  || (in_range 225 236 b1 && cont b2 && cont b3)
  || ((b1 =? 237)%N && in_range 128 159 b2 && cont b3)
  || (in_range 238 239 b1 && cont b2 && cont b3).
Definition is4 (b1 b2 b3 b4 : N) : bool :=
  ((b1 =? 240)%N && in_range 144 191 b2 && cont b3 && cont b4)
  || (in_range 241 243 b1 && cont b2 && cont b3 && cont b4)
  || ((b1 =? 244)%N && in_range 128 143 b2 && cont b3 && cont b4).

Definition cp2 (b1 b2 : N) : N := ((b1 - 192) * 64 + (b2 - 128))%N.
Definition cp3 (b1 b2 b3 : N) : N :=
  ((b1 - 224) * 4096 + (b2 - 128) * 64 + (b3 - 128))%N.
Definition cp4 (b1 b2 b3 b4 : N) : N :=
  ((b1 - 240) * 262144 + (b2 - 128) * 4096 + (b3 - 128) * 64 + (b4 - 128))%N.

Fixpoint utf8_decode (bs : bytes) : option str :=
  match bs with
  | [] => Some []
  | a1 :: r1 =>
    let b1 := N_of_ascii a1 in
    if is_ascii b1 then option_map (cons b1) (utf8_decode r1)
    else
      match r1 with
      | [] => None
      | a2 :: r2 =>
        let b2 := N_of_ascii a2 in
        if is2 b1 b2 then option_map (cons (cp2 b1 b2)) (utf8_decode r2)
        else
          match r2 with
          | [] => None
          | a3 :: r3 =>
            let b3 := N_of_ascii a3 in
            if is3 b1 b2 b3
            then option_map (cons (cp3 b1 b2 b3)) (utf8_decode r3)
            else
              match r3 with
              | [] => None
              | a4 :: r4 =>
                let b4 := N_of_ascii a4 in
                if is4 b1 b2 b3 b4
                then option_map (cons (cp4 b1 b2 b3 b4)) (utf8_decode r4)
                else None
              end
          end
      end
  end.

(** One step of the decoder: the first code point and the bytes after it.
    [utf8_decode] is this step repeated ([utf8_decode_step] below). *)
Definition utf8_step (bs : bytes) : option (N * bytes) :=
  match bs with
  | [] => None
  | a1 :: r1 =>
    let b1 := N_of_ascii a1 in
    if is_ascii b1 then Some (b1, r1)
    else
      match r1 with
      | [] => None
      | a2 :: r2 =>
        let b2 := N_of_ascii a2 in
        if is2 b1 b2 then Some (cp2 b1 b2, r2)
        else
          match r2 with
          | [] => None
          | a3 :: r3 =>
            let b3 := N_of_ascii a3 in
            if is3 b1 b2 b3 then Some (cp3 b1 b2 b3, r3)
            else
              match r3 with
              | [] => None
              | a4 :: r4 =>
                let b4 := N_of_ascii a4 in
                if is4 b1 b2 b3 b4 then Some (cp4 b1 b2 b3 b4, r4) else None
              end
          end
      end
  end.

Definition ascii_byte (a : ascii) : bool := is_ascii (N_of_ascii a).

Definition decode (bs : bytes) : Res str :=
  match utf8_decode bs with
  | Some u => Return u
  | None => Raise UnicodeDecodeError
  end.

(* ================================================================== *)
(** ** Python values *)

(** The numbers a mirror coordinate can be: an [int] or a [float]
    (IEEE binary64, as [spec_float]). *)
Inductive PyNum : Type :=
  | NInt (z : Z)
  | NFloat (f : spec_float).

(** The values the methods receive as arguments or hand to [print]. *)
Inductive PyVal : Type :=
  | VNone
  | VBool (v : bool)
  | VInt (z : Z)
  | VFloat (f : spec_float)
  | VStr (u : str)
  | VBytes (d : bytes).

Definition val_of_num (n : PyNum) : PyVal :=
  match n with
  | NInt z => VInt z
  | NFloat f => VFloat f
  end.

Definition val_of_option (o : option Z) : PyVal :=
  match o with
  | Some z => VInt z
  | None => VNone
  end.

(** [type(v) == int]: a [bool] is not an [int] for [type]. *)
Definition as_int (v : PyVal) : option Z :=
  match v with
  | VInt z => Some z
  | _ => None
  end.

(** Truth value of a method result ([not did_it_work]). *)
Definition truthy (v : PyVal) : bool :=
  match v with
  | VNone => false
  | VBool v => v
  | VInt z => negb (z =? 0)
  | VFloat f => negb (SFeqb f (S754_zero false))
  | VStr u => negb (str_eqb u [])
  | VBytes d => negb (bytes_eqb d [])
  end.

(** The binary64 values of the integer literals the position check
    compares with. *)
Definition float_one : spec_float := S754_finite false 4503599627370496 (-52).
Definition float_minus_one : spec_float :=
  S754_finite true 4503599627370496 (-52).
Definition float_zero : spec_float := S754_zero false.

(** [x < -1], [x > 1] and [x != 0]; an [int] and a [float] compare by
    value, and every comparison with NaN is false except [!=]. *)
Definition lt_minus_one (x : PyNum) : bool :=
  match x with
  | NInt z => z <? -1
  | NFloat f => SFltb f float_minus_one
  end.
Definition gt_one (x : PyNum) : bool :=
  match x with
  | NInt z => 1 <? z
  | NFloat f => SFltb float_one f
  end.
Definition ne_zero (x : PyNum) : bool :=
  match x with
  | NInt z => negb (z =? 0)
  | NFloat f => negb (SFeqb f float_zero)
  end.

(** [str(v)] of an [int]: its decimal digits, with a sign when negative. *)
Definition str_int (z : Z) : str := str_of (NilZero.string_of_int (Z.to_int z)).

(* ================================================================== *)
(** ** The serial transport

    [serial.Serial] belongs to pyserial, outside the repository.  It is
    modelled as a scripted duplex channel: [written] logs the payloads handed
    to [write], oldest first, and [incoming] lists what each successive call
    of [read] or [readline] returns (nothing once the script is used up, as
    a read that times out). *)
Record Serial : Type := mkSerial {
  name : str;
  is_open : bool;
  written : list bytes;
  incoming : list bytes
}.

Definition serial_write (d : bytes) (p : Serial) : Serial :=
  mkSerial (name p) (is_open p) (written p ++ [d]) (incoming p).

Definition serial_read (n : nat) (p : Serial) : bytes * Serial :=
  match incoming p with
  | [] => ([], p)
  | r :: rest => (firstn n r, mkSerial (name p) (is_open p) (written p) rest)
  end.

Definition serial_readline (p : Serial) : bytes * Serial :=
  match incoming p with
  | [] => ([], p)
  | r :: rest => (r, mkSerial (name p) (is_open p) (written p) rest)
  end.

Definition serial_close (p : Serial) : Serial :=
  mkSerial (name p) false (written p) (incoming p).

(* ================================================================== *)
(** ** The session *)

(** [settings] and [position] are the two dictionaries of the class; their
    keys never change, so each is a record of its values.  A setting is
    [None] until a setter stores an [int]. *)
Record Settings : Type := mkSettings {
  Vbias : option Z;
  VdifferenceMax : option Z;
  HardwareFilterBW : option Z
}.

Record Position : Type := mkPosition {
  pos_x : PyNum;
  pos_y : PyNum
}.

(** What a method can read or write: the attributes of the session, and
    the lines sent to the console ([stdout]: the arguments of every [print]
    call, oldest first). *)
Record MEMS_device : Type := mkDevice {
  is_HV_on : bool;
  settings : Settings;
  position : Position;
  ser : Serial;
  stdout : list (list PyVal)
}.

Definition with_HV (v : bool) (st : MEMS_device) : MEMS_device :=
  mkDevice v (settings st) (position st) (ser st) (stdout st).
Definition with_settings (c : Settings) (st : MEMS_device) : MEMS_device :=
  mkDevice (is_HV_on st) c (position st) (ser st) (stdout st).
Definition with_position (p : Position) (st : MEMS_device) : MEMS_device :=
  mkDevice (is_HV_on st) (settings st) p (ser st) (stdout st).
Definition with_ser (p : Serial) (st : MEMS_device) : MEMS_device :=
  mkDevice (is_HV_on st) (settings st) (position st) p (stdout st).
Definition with_stdout (o : list (list PyVal)) (st : MEMS_device) : MEMS_device :=
  mkDevice (is_HV_on st) (settings st) (position st) (ser st) o.

(** *** The monad of methods: state, and a result or an exception *)

Definition M (A : Type) : Type := MEMS_device -> Res A * MEMS_device.

Definition ret {A} (a : A) : M A := fun st => (Return a, st).

Definition bind {A B} (m : M A) (k : A -> M B) : M B :=
  fun st =>
    match m st with
    | (Return a, st') => k a st'
    | (Raise e, st') => (Raise e, st')
    end.

Definition lift {A} (r : Res A) : M A := fun st => (r, st).

Declare Scope py_scope.
Delimit Scope py_scope with py.
Notation "x <- m ;; k" := (bind m (fun x => k))
  (at level 61, m at next level, right associativity) : py_scope.
Notation "m ;; k" := (bind m (fun _ => k))
  (at level 61, right associativity) : py_scope.
Local Open Scope py_scope.

Definition when (c : bool) (m : M unit) : M unit :=
  if c then m else ret tt.

Definition print (args : list PyVal) : M unit :=
  fun st => (Return tt, with_stdout (stdout st ++ [args]) st).

Definition ser_write (d : bytes) : M unit :=
  fun st => (Return tt, with_ser (serial_write d (ser st)) st).

Definition ser_read (n : nat) : M bytes :=
  fun st => let (d, p) := serial_read n (ser st) in (Return d, with_ser p st).

Definition ser_readline : M bytes :=
  fun st => let (d, p) := serial_readline (ser st) in (Return d, with_ser p st).

Definition ser_close : M unit :=
  fun st => (Return tt, with_ser (serial_close (ser st)) st).

(** [sleep(self.sleep_time)] only lets time pass. *)
Definition sleep : M unit := ret tt.

(* ================================================================== *)
(** ** The command exchange *)

(** The argument of [_send_cmd]: text, or bytes already. *)
Inductive Cmd : Type :=
  | CmdStr (u : str)
  | CmdBytes (d : bytes).

(** Lines 74 and 75: text is encoded, bytes are taken as they are. *)
Definition to_bytes (cmd : Cmd) : Res bytes :=
  match cmd with
  | CmdBytes d => Return d
  | CmdStr u => encode_ascii u
  end.

(** Lines 74 to 81, "Format the command".  Each test decodes the payload
    anew, as the source does. *)
Definition format_cmd (cmd : Cmd) : Res bytes :=
  res_bind (to_bytes cmd) (fun cmd =>
  res_bind (decode cmd) (fun t =>
  let cmd := if str_eqb (last_slice 2 t) (str_of CRLF)
                || str_eqb (last_slice 2 t) (str_of LFCR)
             then drop_last 2 cmd else cmd in
  res_bind (decode cmd) (fun t =>
  let cmd := if str_eqb (last_slice 1 t) (str_of (String CR EmptyString))
             then drop_last 1 cmd else cmd in
  res_bind (decode cmd) (fun t =>
  res_bind (last_item t) (fun c =>
  Return (if negb (c =? N_of_ascii LF)%N then cmd ++ [LF] else cmd)))))).

Definition _send_cmd (cmd : Cmd) (read_n_char : nat)
    (print_resp print_cmd : bool) : M str :=
  cmd <- lift (format_cmd cmd) ;;
  when print_cmd (print [VStr (str_of "Sending command:"); VBytes cmd]) ;;
  ser_write cmd ;;
  sleep ;;
  raw <- ser_read read_n_char ;;
  resp <- lift (decode raw) ;;
  when print_resp (print [VStr (str_of "Response:"); VStr resp]) ;;
  ret resp.

(** The default of [read_n_char]. *)
Definition default_read_n_char : nat := 250.

(* ================================================================== *)
(** ** The methods of [MEMS_device] *)

Definition NL : string := String LF EmptyString.

(** The acknowledgement the setters, the position command and the
    high-voltage commands compare the response with. *)
Definition MTI_OK : str := str_of ("MTI-OK" ++ CRLF).

Definition get {A} (f : MEMS_device -> A) : M A := fun st => (Return (f st), st).
Definition modify (f : MEMS_device -> MEMS_device) : M unit :=
  fun st => (Return tt, f st).

Section Device.

(** [str(x)] of a [float] is Python's shortest decimal that reads back as
    [x]; the model takes it as given. *)
Variable str_float : spec_float -> str.

Definition str_num (x : PyNum) : str :=
  match x with
  | NInt z => str_int z
  | NFloat f => str_float f
  end.

Definition __str__ : M str :=
  print [VStr (str_of "==------MEMS DRIVER------==")] ;;
  hv <- get is_HV_on ;;
  (if hv : bool then print [VStr (str_of "Driver is currently ON")]
   else print [VStr (str_of "Driver is currently OFF")]) ;;
  c <- get settings ;;
  print [VStr (str_of "           Vbias ="); val_of_option (Vbias c)] ;;
  print [VStr (str_of "  VdifferenceMax ="); val_of_option (VdifferenceMax c)] ;;
  print [VStr (str_of "HardwareFilterBW ="); val_of_option (HardwareFilterBW c)] ;;
  print [VStr (str_of "==-----------------------==")] ;;
  ret [].

Definition set_Vbias (v : PyVal) (verbose : bool) : M bool :=
  hv <- get is_HV_on ;;
  if hv : bool then
    print [VStr (str_of "Error: cannot change parameters while mirror is on")] ;;
    ret false
  else
    let reject :=
      print [VStr (str_of ("Error: invalid selection. Vbias should be a positive integer in range [0,100]" ++ NL))] ;;
      ret false in
    match as_int v with
    | None => reject
    | Some Vbias' =>
      if (Vbias' <? 0) || (100 <? Vbias') then reject
      else
        when verbose (print [VStr (str_of "Setting Vbias to"); VInt Vbias']) ;;
        let cmd := str_of "MTI+VB " ++ str_int Vbias' in
        resp <- _send_cmd (CmdStr cmd) default_read_n_char verbose false ;;
        if str_eqb resp MTI_OK then
          modify (fun st =>
            with_settings (mkSettings (Some Vbias')
                             (VdifferenceMax (settings st))
                             (HardwareFilterBW (settings st))) st) ;;
          ret true
        else ret false
    end.

Definition set_VdifferenceMax (v : PyVal) (verbose : bool) : M bool :=
  hv <- get is_HV_on ;;
  if hv : bool then
    print [VStr (str_of "Error: cannot change parameters while mirror is on")] ;;
    ret false
  else
    let reject :=
      print [VStr (str_of ("Error: invalid selection. VdifferenceMax should be a positive integer in range [0,200]" ++ NL))] ;;
      ret false in
    match as_int v with
    | None => reject
    | Some VdifferenceMax' =>
      if (VdifferenceMax' <? 0) || (200 <? VdifferenceMax') then reject
      else
        when verbose
          (print [VStr (str_of "Setting VdifferenceMax to"); VInt VdifferenceMax']) ;;
        let cmd := str_of "MTI+VD " ++ str_int VdifferenceMax' in
        resp <- _send_cmd (CmdStr cmd) default_read_n_char verbose false ;;
        if str_eqb resp MTI_OK then
          modify (fun st =>
            with_settings (mkSettings (Vbias (settings st))
                             (Some VdifferenceMax')
                             (HardwareFilterBW (settings st))) st) ;;
          ret true
        else ret false
    end.

Definition set_HardwareFilterBW (v : PyVal) (verbose : bool) : M bool :=
  hv <- get is_HV_on ;;
  if hv : bool then
    print [VStr (str_of "Error: cannot change parameters while mirror is on")] ;;
    ret false
  else
    let reject :=
      print [VStr (str_of ("Error: invalid selection. HardwareFilterBW should be a positive integer in range [50,15000]" ++ NL))] ;;
      ret false in
    match as_int v with
    | None => reject
    | Some HardwareFilterBW' =>
      if (HardwareFilterBW' <? 50) || (15000 <? HardwareFilterBW') then reject
      else
        when verbose
          (print [VStr (str_of "Setting HardwareFilterBW to");
                  VInt HardwareFilterBW']) ;;
        let cmd := str_of "MTI+BW " ++ str_int HardwareFilterBW' in
        resp <- _send_cmd (CmdStr cmd) default_read_n_char verbose false ;;
        if str_eqb resp MTI_OK then
          modify (fun st =>
            with_settings (mkSettings (Vbias (settings st))
                             (VdifferenceMax (settings st))
                             (Some HardwareFilterBW')) st) ;;
          ret true
        else ret false
    end.

(** The three setters run with their default [verbose=True], whatever
    [set_mirror_params] itself was given. *)
Definition set_mirror_params (Vbias' VdifferenceMax' HardwareFilterBW' : PyVal)
    (verbose : bool) : M bool :=
  cmd1_sent <- set_Vbias Vbias' true ;;
  cmd2_sent <- set_VdifferenceMax VdifferenceMax' true ;;
  cmd3_sent <- set_HardwareFilterBW HardwareFilterBW' true ;;
  ret (negb (negb cmd1_sent || negb cmd2_sent || negb cmd3_sent)).

Definition get_mirror_params (verbose : bool)
    : M (option Z * option Z * option Z) :=
  when verbose (u <- __str__ ;; print [VStr u]) ;;
  c <- get settings ;;
  ret (Vbias c, VdifferenceMax c, HardwareFilterBW c).

(** The result is [True], [False] or, when the response is not the
    acknowledgement, [None] (the method ends without a [return]). *)
Definition set_mirror_position (x y : PyNum) (verbose : bool) : M PyVal :=
  if lt_minus_one x || lt_minus_one y || gt_one x || gt_one y then
    print [VStr (str_of ("Error: invalid selection. X, y should be values in range [0,1]" ++ NL))] ;;
    ret (VBool false)
  else
    hv <- get is_HV_on ;;
    when (negb hv && verbose)
      (print [VStr (str_of "Note that driver state is OFF right now.")]) ;;
    when verbose
      (print [VStr (str_of "Going to position x = "); val_of_num x;
              VStr (str_of ", y = "); val_of_num y]) ;;
    let cmd := str_of "MTI+GT " ++ str_num x ++ str_of " " ++ str_num y
               ++ str_of " 0" in
    resp <- _send_cmd (CmdStr cmd) default_read_n_char verbose false ;;
    if str_eqb resp MTI_OK then
      modify (with_position (mkPosition x y)) ;;
      ret (VBool true)
    else ret VNone.

Definition get_mirror_position (verbose : bool) : M (PyNum * PyNum) :=
  p <- get position ;;
  let x := pos_x p in
  let y := pos_y p in
  hv <- get is_HV_on ;;
  when (verbose && negb hv)
    (print [VStr (str_of "Warning: mirror currently switched off. Position is currently [0,0], but set to go to:")]) ;;
  when verbose (print [VStr (str_of "Mirror position x ="); val_of_num x]) ;;
  when verbose
    (print [VStr (str_of "Mirror position y ="); val_of_num y; VStr (str_of NL)]) ;;
  ret (x, y).

Definition is_None (o : option Z) : bool :=
  match o with
  | None => true
  | Some _ => false
  end.

Definition HV_on (verbose : bool) : M bool :=
  p <- get_mirror_params false ;;
  let '(Vbias', Vdiff, HWfilt) := p in
  if existsb is_None [Vbias'; Vdiff; HWfilt] then
    print [VStr (str_of "Error: missing mirror parameters.")] ;;
    print [VStr (str_of "Set Vbias, VdifferenceMax, and HardwarefilterBW before turning on mirror")] ;;
    ret false
  else
    let cmd := str_of ("MTI+EN" ++ NL) in
    print [VStr (str_of "Turning High Voltage on")] ;;
    resp <- _send_cmd (CmdStr cmd) default_read_n_char verbose false ;;
    if str_eqb resp MTI_OK then
      modify (with_HV true) ;;
      ret true
    else ret false.

Definition HV_off (verbose : bool) : M bool :=
  let cmd := str_of ("MTI+DI" ++ NL) in
  when verbose (print [VStr (str_of "Turning High Voltage off")]) ;;
  resp <- _send_cmd (CmdStr cmd) default_read_n_char verbose false ;;
  if str_eqb resp MTI_OK then
    modify (with_HV false) ;;
    ret true
  else ret false.

Definition troubleshoot : M unit :=
  let cmd := str_of ("MTI+EC" ++ NL) in
  print [VStr (str_of "Turning on serial responses")] ;;
  _ <- _send_cmd (CmdStr cmd) default_read_n_char true true ;;
  ret tt.

(** The logout acknowledgement, compared as bytes. *)
Definition MTI_EXIT : bytes := bytes_of ("MTI-Device Exit Command Mode" ++ CRLF).

Definition exit_safely (verbose : bool) : M bool :=
  when verbose (print [VStr (str_of "Starting Exit Sequence")]) ;;
  p <- get_mirror_position false ;;
  let '(xpos, ypos) := p in
  (if ne_zero xpos || ne_zero ypos then
     when verbose (print [VStr (str_of "Returning to position [0,0]")]) ;;
     did_it_work <- set_mirror_position (NInt 0) (NInt 0) false ;;
     when (negb (truthy did_it_work))
       (print [VStr (str_of "Warning: could not return mirror to [0,0]")])
   else ret tt) ;;
  hv <- get is_HV_on ;;
  (if hv : bool then
     when verbose (print [VStr (str_of "Turning HV off")]) ;;
     did_it_work <- HV_off false ;;
     when (negb did_it_work)
       (print [VStr (str_of "Warning: could not turn HV off")])
   else ret tt) ;;
  when verbose (print [VStr (str_of "Logging off:")]) ;;
  ser_write (bytes_of ("MTI+EX" ++ NL)) ;;
  sleep ;;
  response <- ser_readline ;;
  when verbose (u <- lift (decode response) ;; print [VStr u]) ;;
  if bytes_eqb response MTI_EXIT then
    ser_close ;;
    when verbose (print [VStr (str_of "Disconnection successful")]) ;;
    ret true
  else
    print [VStr (str_of "Error: cannot exit command mode on device.  Keeping serial port open")] ;;
    print [VStr (str_of "for manual debugging, the pyserial connection object is stored as self.ser")] ;;
    ret false.

(** *** Construction

    [sign_on] is the body of [__init__] from the sign-on write onwards.
    [__init__] runs it on the new session: the opened transport, the
    high-voltage flag at its default, and the dictionaries of the class as
    they stand ([shared]: they belong to the class, not to the instance). *)
Definition MTI_ALREADY : bytes := bytes_of ("MTI-ERR InvalidCommand" ++ CRLF).

Definition sign_on (verbose : bool) : M unit :=
  ser_write (bytes_of ("$MTI$" ++ NL)) ;;
  sleep ;;
  resp <- ser_readline ;;
  if bytes_eqb resp [] then
    port_name <- get (fun st => name (ser st)) ;;
    print [VStr (str_of "Connection unsuccessful: no MEMS driver found on port:");
           VStr port_name] ;;
    print [VStr (str_of "To check USB connections, open a terminal and run the command:")] ;;
    print [VStr (str_of "    ls -l /dev/serial/by-id")] ;;
    print [VStr (str_of "To check port permissions, open a terminal and run the command:")] ;;
    print [VStr (str_of "    ls -l /dev/insert_your_port_name_here")] ;;
    print [VStr (str_of "See readme for additional guidance")]
  else if verbose && negb (bytes_eqb resp MTI_ALREADY) then
    u <- lift (decode resp) ;;
    print [VStr u]
  else ret tt.

Definition __init__ (port : Serial) (verbose : bool)
    (shared : Settings * Position) (console : list (list PyVal))
    : Res unit * MEMS_device :=
  sign_on verbose (mkDevice false (fst shared) (snd shared) port console).

End Device.

(* ================================================================== *)
(** ** Vocabulary of the statements *)

(** What the next [read(n)] on the transport returns. *)
Definition next_read (n : nat) (st : MEMS_device) : bytes :=
  fst (serial_read n (ser st)).

(** The session once [d] has been written and one reply read. *)
Definition after_exchange (d : bytes) (n : nat) (st : MEMS_device) : MEMS_device :=
  with_ser (snd (serial_read n (serial_write d (ser st)))) st.

(** [_send_cmd] prints the response when asked to. *)
Definition echo (verbose : bool) (resp : str) (st : MEMS_device) : MEMS_device :=
  if verbose
  then with_stdout (stdout st ++ [[VStr (str_of "Response:"); VStr resp]]) st
  else st.

(** The outcome of "exchange, then store on acknowledgement", the tail the
    setters, the position command and the high-voltage commands share. *)
Definition exchange_outcome {A} (d : bytes) (verbose : bool)
    (store : MEMS_device -> MEMS_device) (yes no : A) (st : MEMS_device)
    : Res A * MEMS_device :=
  match utf8_decode (next_read default_read_n_char st) with
  | None => (Raise UnicodeDecodeError, after_exchange d default_read_n_char st)
  | Some resp =>
    let st2 := echo verbose resp (after_exchange d default_read_n_char st) in
    if str_eqb resp MTI_OK then (Return yes, store st2) else (Return no, st2)
  end.

(** The acknowledgement as the device sends it. *)
Definition OK_bytes : bytes := bytes_of ("MTI-OK" ++ CRLF).

(** The three parameters, their setters, ranges and dictionary entries. *)
Inductive Param : Type := P_Vbias | P_VdifferenceMax | P_HardwareFilterBW.

Definition setter (p : Param) : PyVal -> bool -> M bool :=
  match p with
  | P_Vbias => set_Vbias
  | P_VdifferenceMax => set_VdifferenceMax
  | P_HardwareFilterBW => set_HardwareFilterBW
  end.

Definition range_lo (p : Param) : Z :=
  match p with
  | P_Vbias => 0
  | P_VdifferenceMax => 0
  | P_HardwareFilterBW => 50
  end.

Definition range_hi (p : Param) : Z :=
  match p with
  | P_Vbias => 100
  | P_VdifferenceMax => 200
  | P_HardwareFilterBW => 15000
  end.

Definition in_bounds (p : Param) (z : Z) : Prop := range_lo p <= z <= range_hi p.


Definition store (p : Param) (z : Z) (st : MEMS_device) : MEMS_device :=
  with_settings
    (match p with
     | P_Vbias =>
       mkSettings (Some z) (VdifferenceMax (settings st))
         (HardwareFilterBW (settings st))
     | P_VdifferenceMax =>
       mkSettings (Vbias (settings st)) (Some z) (HardwareFilterBW (settings st))
     | P_HardwareFilterBW =>
       mkSettings (Vbias (settings st)) (VdifferenceMax (settings st)) (Some z)
     end) st.

Definition all_set (c : Settings) : Prop :=
  Vbias c <> None /\ VdifferenceMax c <> None /\ HardwareFilterBW c <> None.

(** [-1 <= x] and [x <= 1], as Python compares them. *)
Definition ge_minus_one (x : PyNum) : bool :=
  match x with
  | NInt z => -1 <=? z
  | NFloat f => SFleb float_minus_one f
  end.
Definition le_one (x : PyNum) : bool :=
  match x with
  | NInt z => z <=? 1
  | NFloat f => SFleb f float_one
  end.
Definition in_closed_range (x : PyNum) : bool := ge_minus_one x && le_one x.

(** The test of line 179. *)
Definition out_of_range (x y : PyNum) : bool :=
  lt_minus_one x || lt_minus_one y || gt_one x || gt_one y.

(** A payload that ends in a line feed with no carriage return before it. *)
Definition normalized (d : bytes) : Prop :=
  exists p, d = p ++ [LF] /\ forall q, p <> q ++ [CR].

(** The exit sequence: whether it re-centres, the payloads it writes, and
    the reply its logout reads (each earlier exchange takes one reply). *)
Definition recenter_needed (st : MEMS_device) : bool :=
  ne_zero (pos_x (position st)) || ne_zero (pos_y (position st)).

Definition exit_commands (st : MEMS_device) : list bytes :=
  (if recenter_needed st then [bytes_of ("MTI+GT 0 0 0" ++ NL)] else [])
  ++ (if is_HV_on st then [bytes_of ("MTI+DI" ++ NL)] else [])
  ++ [bytes_of ("MTI+EX" ++ NL)].

Definition logout_reply (st : MEMS_device) : bytes :=
  nth (List.length (exit_commands st) - 1) (incoming (ser st)) [].

(** *** Sample sessions *)

Definition port0 (replies : list bytes) : Serial :=
  mkSerial (str_of "/dev/ttyUSB0") true [] replies.

Definition no_settings : Settings := mkSettings None None None.
Definition centre : Position := mkPosition (NInt 0) (NInt 0).

(** High voltage off, nothing set, mirror centred. *)
Definition idle (replies : list bytes) : MEMS_device :=
  mkDevice false no_settings centre (port0 replies) [].

(** All three parameters set, high voltage off. *)
Definition configured (replies : list bytes) : MEMS_device :=
  mkDevice false (mkSettings (Some 70) (Some 120) (Some 200)) centre
    (port0 replies) [].

(** High voltage on, mirror at (0.5, -0.5). *)
Definition float_half : spec_float := S754_finite false 4503599627370496 (-53).
Definition float_minus_half : spec_float :=
  S754_finite true 4503599627370496 (-53).
Definition float_three_halves : spec_float :=
  S754_finite false 6755399441055744 (-52).

Definition running (replies : list bytes) : MEMS_device :=
  mkDevice true (mkSettings (Some 70) (Some 120) (Some 200))
    (mkPosition (NFloat float_half) (NFloat float_minus_half))
    (port0 replies) [].

(** A reply that is not UTF-8: the byte 0xFF and a line feed. *)
Definition garbled : bytes := ["255"%char; LF].

(** A stand-in for [str] on floats in the examples. *)
Definition str_float_sample (f : spec_float) : str :=
  if SFeqb f float_half then str_of "0.5"
  else if SFeqb f float_minus_half then str_of "-0.5"
  else if SFeqb f float_three_halves then str_of "1.5"
  else str_of "0.0".

(** The three steps of [exit_safely], named so that each can be reasoned
    about on its own ([exit_safely_steps] below shows that the method is
    their sequence). *)
Definition recenter_step (str_float : spec_float -> str) (verbose : bool)
    (xpos ypos : PyNum) : M unit :=
  if ne_zero xpos || ne_zero ypos then
    when verbose (print [VStr (str_of "Returning to position [0,0]")]) ;;
    did_it_work <- set_mirror_position str_float (NInt 0) (NInt 0) false ;;
    when (negb (truthy did_it_work))
      (print [VStr (str_of "Warning: could not return mirror to [0,0]")])
  else ret tt.

Definition disable_step (verbose : bool) (hv : bool) : M unit :=
  if hv then
    when verbose (print [VStr (str_of "Turning HV off")]) ;;
    did_it_work <- HV_off false ;;
    when (negb did_it_work)
      (print [VStr (str_of "Warning: could not turn HV off")])
  else ret tt.

Definition logout_step (verbose : bool) : M bool :=
  when verbose (print [VStr (str_of "Logging off:")]) ;;
  ser_write (bytes_of ("MTI+EX" ++ NL)) ;;
  sleep ;;
  response <- ser_readline ;;
  when verbose (u <- lift (decode response) ;; print [VStr u]) ;;
  if bytes_eqb response MTI_EXIT then
    ser_close ;;
    when verbose (print [VStr (str_of "Disconnection successful")]) ;;
    ret true
  else
    print [VStr (str_of "Error: cannot exit command mode on device.  Keeping serial port open")] ;;
    print [VStr (str_of "for manual debugging, the pyserial connection object is stored as self.ser")] ;;
    ret false.

(** The report printed when the sign-on read returns nothing. *)
Definition no_device_report (port_name : str) : list (list PyVal) :=
  [ [VStr (str_of "Connection unsuccessful: no MEMS driver found on port:");
     VStr port_name];
    [VStr (str_of "To check USB connections, open a terminal and run the command:")];
    [VStr (str_of "    ls -l /dev/serial/by-id")];
    [VStr (str_of "To check port permissions, open a terminal and run the command:")];
    [VStr (str_of "    ls -l /dev/insert_your_port_name_here")];
    [VStr (str_of "See readme for additional guidance")] ].

(** The session [__init__] leaves when the sign-on does not raise, before
    anything is printed. *)
Definition signed_on (port : Serial) (shared : Settings * Position)
    (console : list (list PyVal)) : MEMS_device :=
  mkDevice false (fst shared) (snd shared)
    (snd (serial_readline (serial_write (bytes_of ("$MTI$" ++ NL)) port)))
    console.

(** What a step of the exit sequence does to the transport: the payloads
    it wrote and the number of replies it took; the port stays as it was. *)
Definition same_port (st st' : MEMS_device) (sent : list bytes) (taken : nat)
    : Prop :=
  written (ser st') = written (ser st) ++ sent
  /\ incoming (ser st') = skipn taken (incoming (ser st))
  /\ is_open (ser st') = is_open (ser st).
(* ================================================================== *)
(** * Proofs *)

(** ** Lists, text and bytes *)

Lemma str_eqb_eq (u v : str) : str_eqb u v = true <-> u = v.
Proof. unfold str_eqb. destruct (list_eq_dec N.eq_dec u v); split; congruence. Qed.

Lemma str_eqb_neq (u v : str) : str_eqb u v = false <-> u <> v.
Proof. unfold str_eqb. destruct (list_eq_dec N.eq_dec u v); split; congruence. Qed.

Lemma bytes_eqb_eq (u v : bytes) : bytes_eqb u v = true <-> u = v.
Proof. unfold bytes_eqb. destruct (list_eq_dec ascii_dec u v); split; congruence. Qed.

Lemma bytes_eqb_neq (u v : bytes) : bytes_eqb u v = false <-> u <> v.
Proof. unfold bytes_eqb. destruct (list_eq_dec ascii_dec u v); split; congruence. Qed.

Lemma forallb_firstn {A} (f : A -> bool) (n : nat) (l : list A) :
  forallb f l = true -> forallb f (firstn n l) = true.
Proof.
  revert n. induction l as [|x l IH]; intros [|n] H; try reflexivity.
  cbn in *. apply andb_prop in H as [Hx Hl]. rewrite Hx. cbn. auto.
Qed.

Lemma drop_last_length {A} (k : nat) (l : list A) :
  List.length (drop_last k l) = (List.length l - k)%nat.
Proof. unfold drop_last. rewrite length_firstn. lia. Qed.

Lemma last_slice_snoc1 {A} (l : list A) (c : A) : last_slice 1 (l ++ [c]) = [c].
Proof.
  unfold last_slice. rewrite length_app. cbn [List.length].
  replace (List.length l + 1 - 1)%nat with (List.length l + 0)%nat by lia.
  rewrite skipn_app, Nat.add_0_r, skipn_all. 
  replace (List.length l - List.length l)%nat with 0%nat by lia. reflexivity.
Qed.

Lemma last_slice_snoc2 {A} (l : list A) (c1 c2 : A) :
  last_slice 2 (l ++ [c1; c2]) = [c1; c2].
Proof.
  unfold last_slice. rewrite length_app. cbn [List.length].
  replace (List.length l + 2 - 2)%nat with (List.length l + 0)%nat by lia.
  rewrite skipn_app, Nat.add_0_r, skipn_all.
  replace (List.length l - List.length l)%nat with 0%nat by lia. reflexivity.
Qed.

Lemma last_item_snoc (l : str) (c : N) : last_item (l ++ [c]) = Return c.
Proof.
  destruct l as [|x l]; [reflexivity|].
  cbn [app last_item]. rewrite last_last. reflexivity.
Qed.

Lemma hd_skipn {A} (k : nat) (l : list A) (d : A) : hd d (skipn k l) = nth k l d.
Proof.
  revert l. induction k as [|k IH]; intros [|x l]; cbn; try reflexivity.
  apply IH.
Qed.

(** ** The UTF-8 decoder *)

Lemma utf8_decode_step (a : ascii) (r : bytes) :
  utf8_decode (a :: r) =
  match utf8_step (a :: r) with
  | Some (c, rest) => option_map (cons c) (utf8_decode rest)
  | None => None
  end.
Proof.
  cbn [utf8_decode utf8_step].
  destruct (is_ascii (N_of_ascii a)); [reflexivity|].
  destruct r as [|a2 r2]; [reflexivity|].
  destruct (is2 _ _); [reflexivity|].
  destruct r2 as [|a3 r3]; [reflexivity|].
  destruct (is3 _ _ _); [reflexivity|].
  destruct r3 as [|a4 r4]; [reflexivity|].
  destruct (is4 _ _ _ _); reflexivity.
Qed.

Ltac unbool :=
  repeat match goal with
  | H : _ && _ = true |- _ => apply andb_prop in H; destruct H
  | H : _ || _ = true |- _ => apply orb_prop in H; destruct H
  | H : (_ <=? _)%N = true |- _ => apply N.leb_le in H
  | H : (_ <? _)%N = true |- _ => apply N.ltb_lt in H
  | H : (_ <? _)%N = false |- _ => apply N.ltb_ge in H
  | H : (_ =? _)%N = true |- _ => apply N.eqb_eq in H
  end.

Lemma cont_not_ascii x : cont x = true -> is_ascii x = false.
Proof.
  unfold cont, in_range, is_ascii. intros H. unbool. apply N.ltb_ge. lia.
Qed.

Lemma is2_high b1 b2 : is2 b1 b2 = true -> (128 <= cp2 b1 b2)%N /\ cont b2 = true.
Proof.
  unfold is2, in_range, cp2. intros H. unbool. split; [lia|assumption].
Qed.

Lemma is3_high b1 b2 b3 :
  is3 b1 b2 b3 = true ->
  (128 <= cp3 b1 b2 b3)%N /\ is_ascii b2 = false /\ cont b3 = true.
Proof.
  unfold is3, in_range, cp3. intros H.
  unbool; (split; [unfold cont, in_range in *; unbool; lia|]);
    (split; [|assumption]);
    unfold cont, in_range, is_ascii in *; unbool; apply N.ltb_ge; lia.
Qed.

Lemma is4_high b1 b2 b3 b4 :
  is4 b1 b2 b3 b4 = true ->
  (128 <= cp4 b1 b2 b3 b4)%N /\ is_ascii b2 = false /\ is_ascii b3 = false
  /\ cont b4 = true.
Proof.
  unfold is4, in_range, cp4. intros H.
  unbool; (split; [unfold cont, in_range in *; unbool; lia|]);
    (split; [unfold cont, in_range, is_ascii in *; unbool; apply N.ltb_ge; lia|]);
    (split; [|assumption]);
    unfold cont, in_range, is_ascii in *; unbool; apply N.ltb_ge; lia.
Qed.

Lemma is2_cont b1 b2 : is2 b1 b2 = true -> cont b2 = true.
Proof. intros H. apply is2_high in H. tauto. Qed.

Lemma is3_cont b1 b2 b3 : is3 b1 b2 b3 = true -> cont b3 = true.
Proof. intros H. apply is3_high in H. tauto. Qed.

Lemma is4_cont b1 b2 b3 b4 : is4 b1 b2 b3 b4 = true -> cont b4 = true.
Proof. intros H. apply is4_high in H. tauto. Qed.

Lemma utf8_step_shape (bs : bytes) (c : N) (rest : bytes) :
  utf8_step bs = Some (c, rest) ->
  exists pre, bs = pre ++ rest /\ pre <> [] /\
    ((exists a, pre = [a] /\ c = N_of_ascii a /\ is_ascii c = true)
     \/ ((128 <= c)%N /\ Forall (fun a => ascii_byte a = false) pre)).
Proof.
  unfold utf8_step.
  destruct bs as [|a1 r1]; [discriminate|].
  destruct (is_ascii (N_of_ascii a1)) eqn:E1.
  { intros H; injection H as <- <-. exists [a1].
    repeat split; [discriminate|]. left. exists a1. auto. }
  destruct r1 as [|a2 r2]; [discriminate|].
  destruct (is2 _ _) eqn:E2.
  { intros H; injection H as <- <-. exists [a1; a2].
    apply is2_high in E2 as [Hc H2]. apply cont_not_ascii in H2.
    repeat split; [discriminate|]. right. split; [assumption|].
    repeat constructor; assumption. }
  destruct r2 as [|a3 r3]; [discriminate|].
  destruct (is3 _ _ _) eqn:E3.
  { intros H; injection H as <- <-. exists [a1; a2; a3].
    apply is3_high in E3 as (Hc & H2 & H3). apply cont_not_ascii in H3.
    repeat split; [discriminate|]. right. split; [assumption|].
    repeat constructor; assumption. }
  destruct r3 as [|a4 r4]; [discriminate|].
  destruct (is4 _ _ _ _) eqn:E4; [|discriminate].
  intros H; injection H as <- <-. exists [a1; a2; a3; a4].
  apply is4_high in E4 as (Hc & H2 & H3 & H4). apply cont_not_ascii in H4.
  repeat split; [discriminate|]. right. split; [assumption|].
  repeat constructor; assumption.
Qed.

Lemma utf8_step_length (bs : bytes) (c : N) (rest : bytes) :
  utf8_step bs = Some (c, rest) -> (List.length rest < List.length bs)%nat.
Proof.
  intros H. apply utf8_step_shape in H as (pre & -> & Hne & _).
  rewrite length_app. destruct pre; [congruence|]. cbn. lia.
Qed.

(** A step never ends on an ASCII byte it did not start with: appending
    one to the input leaves the step as it was. *)
Lemma utf8_step_snoc (bs : bytes) (a : ascii) (c : N) (rest : bytes) :
  ascii_byte a = true -> bs <> [] ->
  utf8_step (bs ++ [a]) = Some (c, rest) ->
  exists rest', rest = rest' ++ [a] /\ utf8_step bs = Some (c, rest').
Proof.
  intros Ha Hne. unfold ascii_byte in Ha.
  assert (Hnc : cont (N_of_ascii a) = false).
  { destruct (cont (N_of_ascii a)) eqn:E; [|reflexivity].
    apply cont_not_ascii in E. congruence. }
  destruct bs as [|a1 r1]; [congruence|]. clear Hne.
  cbn [app utf8_step].
  destruct (is_ascii (N_of_ascii a1)) eqn:E1.
  { intros H; injection H as <- <-. eauto. }
  destruct r1 as [|a2 r2]; cbn [app].
  { destruct (is2 _ _) eqn:E2; [apply is2_cont in E2; congruence|discriminate]. }
  destruct (is2 _ _) eqn:E2.
  { intros H; injection H as <- <-. eauto. }
  destruct r2 as [|a3 r3]; cbn [app].
  { destruct (is3 _ _ _) eqn:E3; [apply is3_cont in E3; congruence|discriminate]. }
  destruct (is3 _ _ _) eqn:E3.
  { intros H; injection H as <- <-. eauto. }
  destruct r3 as [|a4 r4]; cbn [app].
  { destruct (is4 _ _ _ _) eqn:E4; [apply is4_cont in E4; congruence|discriminate]. }
  destruct (is4 _ _ _ _) eqn:E4; [|discriminate].
  intros H; injection H as <- <-. eauto.
Qed.

Lemma utf8_decode_ascii (d : bytes) :
  forallb ascii_byte d = true -> utf8_decode d = Some (map N_of_ascii d).
Proof.
  induction d as [|a d IH]; [reflexivity|].
  cbn [forallb]. intros H. apply andb_prop in H as [Ha Hd].
  cbn [utf8_decode map]. unfold ascii_byte in Ha. rewrite Ha, (IH Hd).
  reflexivity.
Qed.

Lemma utf8_decode_snoc_inv (p : bytes) (a : ascii) (t : str) :
  ascii_byte a = true ->
  utf8_decode (p ++ [a]) = Some t ->
  exists t', t = t' ++ [N_of_ascii a] /\ utf8_decode p = Some t'.
Proof.
  intros Ha. remember (List.length p) as n eqn:Hn.
  revert p t Hn. induction n as [n IH] using lt_wf_ind. intros p t Hn H.
  destruct p as [|a1 p1].
  - cbn in H. unfold ascii_byte in Ha. rewrite Ha in H. cbn in H.
    exists []. injection H as <-. auto.
  - change ((a1 :: p1) ++ [a]) with (a1 :: (p1 ++ [a])) in H.
    rewrite utf8_decode_step in H.
    destruct (utf8_step (a1 :: p1 ++ [a])) as [[c rest]|] eqn:Hs; [|discriminate].
    change (a1 :: p1 ++ [a]) with ((a1 :: p1) ++ [a]) in Hs.
    apply utf8_step_snoc in Hs as (rest' & -> & Hs'); [|assumption|discriminate].
    destruct (utf8_decode (rest' ++ [a])) as [cs0|] eqn:Hr; [|discriminate].
    cbn in H. injection H as <-.
    pose proof (utf8_step_length _ _ _ Hs') as Hlen.
    destruct (IH (List.length rest') ltac:(lia) rest' cs0 eq_refl Hr)
      as (t'' & -> & Hd).
    exists (c :: t''). split; [reflexivity|].
    rewrite utf8_decode_step, Hs', Hd. reflexivity.
Qed.

Lemma utf8_decode_last_high (bs : bytes) :
  forall (cs : str) (p : bytes) (a : ascii),
  utf8_decode bs = Some cs -> bs = p ++ [a] -> ascii_byte a = false ->
  exists cs' c, cs = cs' ++ [c] /\ (128 <= c)%N.
Proof.
  remember (List.length bs) as n eqn:Hn.
  revert bs Hn. induction n as [n IH] using lt_wf_ind.
  intros bs Hn cs p a H Hbs Ha.
  destruct bs as [|a1 r1]; [destruct p; discriminate|].
  rewrite utf8_decode_step in H.
  destruct (utf8_step (a1 :: r1)) as [[c rest]|] eqn:Hs; [|discriminate].
  destruct (utf8_decode rest) as [cs0|] eqn:Hr; [|discriminate].
  cbn in H. injection H as <-.
  pose proof (utf8_step_length _ _ _ Hs) as Hlen.
  apply utf8_step_shape in Hs as (pre & Hpre & Hne & Hc).
  destruct rest as [|r0 rest0].
  - cbn in Hr. injection Hr as <-. exists [], c. split; [reflexivity|].
    rewrite app_nil_r in Hpre. destruct Hc as [(a' & -> & -> & Hasc)|[Hc _]];
      [|assumption].
    rewrite Hbs in Hpre. destruct p as [|? [|? ?]]; try discriminate.
    injection Hpre as ->. unfold ascii_byte in Ha. congruence.
  - destruct (exists_last (l := r0 :: rest0) ltac:(discriminate))
      as (rest' & a' & Hrest).
    rewrite Hrest in Hpre. rewrite Hbs, app_assoc in Hpre.
    apply app_inj_tail in Hpre as [_ <-].
    destruct (IH (List.length (r0 :: rest0)) ltac:(lia) _ eq_refl cs0 rest' a Hr
                Hrest Ha) as (cs' & c' & -> & Hc').
    exists (c :: cs'), c'. auto.
Qed.

Lemma utf8_decode_nil_inv (bs : bytes) : utf8_decode bs = Some [] -> bs = [].
Proof.
  destruct bs as [|a r]; [reflexivity|].
  rewrite utf8_decode_step.
  destruct (utf8_step (a :: r)) as [[c rest]|]; [|discriminate].
  destruct (utf8_decode rest); discriminate.
Qed.

(** Text that ends in an ASCII character was decoded from bytes that end in
    that character. *)
Lemma utf8_decode_last_ascii (p : bytes) (t : str) (c : N) :
  utf8_decode p = Some (t ++ [c]) -> is_ascii c = true ->
  exists p', p = p' ++ [ascii_of_N c].
Proof.
  intros H Hc.
  destruct p as [|a0 p0]; [destruct t; discriminate|].
  destruct (exists_last (l := a0 :: p0) ltac:(discriminate)) as (p' & a & Hp).
  rewrite Hp in *. exists p'.
  destruct (ascii_byte a) eqn:Ha.
  - apply utf8_decode_snoc_inv in H as (t' & Ht & _); [|assumption].
    apply app_inj_tail in Ht as [_ ->]. rewrite ascii_N_embedding. reflexivity.
  - destruct (utf8_decode_last_high _ _ _ _ H eq_refl Ha) as (cs' & c' & Ht & Hc').
    apply app_inj_tail in Ht as [_ ->]. unfold is_ascii in Hc.
    apply N.ltb_lt in Hc. lia.
Qed.

(** Bytes that decode to ASCII text are that text. *)
Lemma utf8_decode_ascii_inv (u : str) :
  forall raw, utf8_decode raw = Some u -> forallb is_ascii u = true ->
  raw = map ascii_of_N u.
Proof.
  induction u as [|c u IH]; intros raw H Hu.
  - apply utf8_decode_nil_inv in H. subst. reflexivity.
  - destruct raw as [|a r]; [discriminate|].
    rewrite utf8_decode_step in H.
    destruct (utf8_step (a :: r)) as [[c' rest]|] eqn:Hs; [|discriminate].
    destruct (utf8_decode rest) as [cs0|] eqn:Hr; [|discriminate].
    cbn in H. injection H as -> ->.
    cbn [forallb] in Hu. apply andb_prop in Hu as [Hc Hu].
    apply utf8_step_shape in Hs as (pre & Hpre & _ & Hsh).
    destruct Hsh as [(a' & -> & -> & _)|[Hhigh _]].
    + injection Hpre as -> ->. cbn [map]. rewrite ascii_N_embedding.
      f_equal. apply IH; assumption.
    + unfold is_ascii in Hc. apply N.ltb_lt in Hc. lia.
Qed.

Lemma decode_ascii (d : bytes) :
  forallb ascii_byte d = true -> decode d = Return (map N_of_ascii d).
Proof. intros H. unfold decode. rewrite utf8_decode_ascii by assumption. reflexivity. Qed.


Lemma encode_ascii_ok (u : str) :
  forallb is_ascii u = true ->
  encode_ascii u = Return (map ascii_of_N u)
  /\ forallb ascii_byte (map ascii_of_N u) = true
  /\ List.length (map ascii_of_N u) = List.length u.
Proof.
  intros H. unfold encode_ascii. rewrite H. split; [reflexivity|].
  split; [|apply length_map].
  induction u as [|c u IH]; [reflexivity|].
  cbn in *. apply andb_prop in H as [Hc Hu]. rewrite (IH Hu), andb_true_r.
  unfold ascii_byte. rewrite N_ascii_embedding; [assumption|].
  unfold is_ascii in Hc. apply N.ltb_lt in Hc. lia.
Qed.

(** From here on the literals of the source stay folded. *)
Arguments str_of : simpl never.
Arguments bytes_of : simpl never.

Lemma string_of_uint_ascii (d : Decimal.uint) :
  forallb is_ascii (str_of (NilEmpty.string_of_uint d)) = true.
Proof. induction d; cbn; try reflexivity; exact IHd. Qed.

Lemma str_int_ascii (z : Z) : forallb is_ascii (str_int z) = true.
Proof.
  unfold str_int, NilZero.string_of_int, NilZero.string_of_uint.
  destruct (Z.to_int z) as [d|d].
  - destruct d; try reflexivity; apply string_of_uint_ascii.
  - change (str_of (String "-" ?x)) with (45%N :: str_of x).
    destruct d; try reflexivity; apply (string_of_uint_ascii).
Qed.

Lemma decode_OK_bytes : utf8_decode OK_bytes = Some MTI_OK.
Proof. reflexivity. Qed.

Lemma utf8_decode_OK_inv (raw : bytes) :
  utf8_decode raw = Some MTI_OK -> raw = OK_bytes.
Proof. intros H. apply utf8_decode_ascii_inv in H; [exact H|reflexivity]. Qed.

(** ** The format step *)

(** A payload of ASCII bytes longer than the three characters the format
    step can strip is formatted without an exception. *)
Lemma format_cmd_bytes_ascii (d : bytes) :
  forallb ascii_byte d = true -> (3 < List.length d)%nat ->
  exists d', format_cmd (CmdBytes d) = Return d'.
Proof.
  intros Hd Hlen. unfold format_cmd. cbn [to_bytes res_bind].
  rewrite (decode_ascii d Hd). cbn [res_bind].
  match goal with |- context [if ?c then drop_last 2 d else d] =>
    set (d1 := if c then drop_last 2 d else d);
    assert (H1 : forallb ascii_byte d1 = true /\ (1 < List.length d1)%nat)
      by (subst d1; destruct c;
          [split; [apply forallb_firstn; assumption|rewrite drop_last_length; lia]
          |split; [assumption|lia]])
  end.
  destruct H1 as [Hd1 Hlen1]. rewrite (decode_ascii d1 Hd1). cbn [res_bind].
  match goal with |- context [if ?c then drop_last 1 d1 else d1] =>
    set (d2 := if c then drop_last 1 d1 else d1);
    assert (H2 : forallb ascii_byte d2 = true /\ (0 < List.length d2)%nat)
      by (subst d2; destruct c;
          [split; [apply forallb_firstn; assumption|rewrite drop_last_length; lia]
          |split; [assumption|lia]])
  end.
  destruct H2 as [Hd2 Hlen2]. rewrite (decode_ascii d2 Hd2). cbn [res_bind].
  destruct d2 as [|a d2']; [cbn in Hlen2; lia|].
  cbn [map last_item res_bind]. eauto.
Qed.

Lemma format_cmd_str_ascii (u : str) :
  forallb is_ascii u = true -> (3 < List.length u)%nat ->
  exists d, format_cmd (CmdStr u) = Return d.
Proof.
  intros Hu Hlen. destruct (encode_ascii_ok u Hu) as (He & Ha & Hl).
  destruct (format_cmd_bytes_ascii (map ascii_of_N u) Ha) as [d Hd]; [lia|].
  exists d. unfold format_cmd in *. cbn [to_bytes] in *. rewrite He. exact Hd.
Qed.

Lemma format_cmd_det (cmd : Cmd) (d d' : bytes) :
  format_cmd cmd = Return d -> format_cmd cmd = Return d' -> d = d'.
Proof. congruence. Qed.

Lemma normalized_intro (p : bytes) (a : ascii) :
  a <> CR -> normalized ((p ++ [a]) ++ [LF]).
Proof.
  intros Ha. exists (p ++ [a]). split; [reflexivity|].
  intros q H. apply app_inj_tail in H as [_ H]. contradiction.
Qed.

(** C7, as stated, fails.  The bytes [0xFF 0x0A] end in a line feed with no
    carriage return before it, and the format step raises
    [UnicodeDecodeError] on them.  Nor is the step idempotent on what it
    returns: [a\r\n\r\n] becomes [a\r\n], which becomes [a\n]. *)
Lemma format_cmd_normalized_counterexample :
  normalized garbled
  /\ format_cmd (CmdBytes garbled) = Raise UnicodeDecodeError
  /\ format_cmd (CmdBytes (bytes_of ("a" ++ CRLF ++ CRLF)))
     = Return (bytes_of ("a" ++ CRLF))
  /\ format_cmd (CmdBytes (bytes_of ("a" ++ CRLF)))
     = Return (bytes_of ("a" ++ NL)).
Proof.
  split; [|repeat split; reflexivity].
  apply (normalized_intro [] "255"%char). discriminate.
Qed.

(** C7, as amended.  A payload that is text (a [str] of ASCII characters, or
    [bytes] that are UTF-8) and ends in a line feed with no carriage return
    before it comes out of the format step as it went in. *)
Theorem format_cmd_fixes_normalized_text (cmd : Cmd) (d : bytes) (t : str) :
  to_bytes cmd = Return d ->
  utf8_decode d = Some t ->
  normalized d ->
  format_cmd cmd = Return d.
Proof.
  intros Hb Hd (p & -> & Hcr).
  apply utf8_decode_snoc_inv in Hd as Hsn; [|reflexivity].
  destruct Hsn as (t' & -> & Hp).
  change (N_of_ascii LF) with 10%N in *.
  assert (Hdec : decode (p ++ [LF]) = Return (t' ++ [10%N]))
    by (unfold decode; rewrite Hd; reflexivity).
  assert (H2 : str_eqb (last_slice 2 (t' ++ [10%N])) (str_of CRLF)
               || str_eqb (last_slice 2 (t' ++ [10%N])) (str_of LFCR) = false).
  { apply orb_false_intro; apply str_eqb_neq.
    - destruct t' as [|c0 t0]; [discriminate|].
      destruct (exists_last (l := c0 :: t0) ltac:(discriminate)) as (t'' & c & E).
      rewrite E in *. rewrite <- app_assoc. cbn [app].
      rewrite last_slice_snoc2. intros H. injection H as ->.
      apply utf8_decode_last_ascii in Hp as [p' Hp']; [|reflexivity].
      exact (Hcr p' Hp').
    - destruct t' as [|c0 t0]; [discriminate|].
      destruct (exists_last (l := c0 :: t0) ltac:(discriminate)) as (t'' & c & E).
      rewrite E. rewrite <- app_assoc. cbn [app].
      rewrite last_slice_snoc2. discriminate. }
  unfold format_cmd. rewrite Hb. cbn [res_bind].
  rewrite Hdec. cbn [res_bind]. rewrite H2, Hdec. cbn [res_bind].
  rewrite last_slice_snoc1.
  replace (str_eqb [10%N] (str_of (String CR EmptyString))) with false
    by reflexivity.
  rewrite Hdec. cbn [res_bind]. rewrite last_item_snoc. cbn [res_bind].
  reflexivity.
Qed.

(** C7 as amended, at [MTI+VB 10\n]. *)
Lemma format_cmd_fixes_normalized_text_witness :
  format_cmd (CmdStr (str_of ("MTI+VB 10" ++ NL)))
  = Return (bytes_of ("MTI+VB 10" ++ NL)).
Proof.
  apply (format_cmd_fixes_normalized_text _ _ (str_of ("MTI+VB 10" ++ NL)));
    [reflexivity|reflexivity|].
  apply (normalized_intro (bytes_of "MTI+VB 1") "0"%char). discriminate.
Defined.

(** ** Running the monad *)

Lemma bind_inv {A B} (m : M A) (k : A -> M B) st r st' :
  bind m k st = (Return r, st') ->
  exists a s1, m st = (Return a, s1) /\ k a s1 = (Return r, st').
Proof.
  unfold bind. destruct (m st) as [[a|e] s1]; intros H; [eauto|discriminate].
Qed.

Lemma bind_run {A B} (m : M A) (k : A -> M B) st a s1 :
  m st = (Return a, s1) -> bind m k st = k a s1.
Proof. intros H. unfold bind. rewrite H. reflexivity. Qed.

Lemma ran {A} (m : M A) (st : MEMS_device) (a : A) (s1 : MEMS_device) :
  m st = (Return a, s1) -> s1 = snd (m st).
Proof. intros H. rewrite H. reflexivity. Qed.

Lemma when_print (c : bool) (args : list PyVal) (st : MEMS_device) :
  exists o, when c (print args) st = (Return tt, with_stdout o st).
Proof.
  destruct c; [eexists; reflexivity|].
  exists (stdout st). destruct st; reflexivity.
Qed.

Lemma ser_readline_run (st : MEMS_device) :
  ser_readline st
  = (Return (fst (serial_readline (ser st))),
     with_ser (snd (serial_readline (ser st))) st).
Proof. unfold ser_readline. destruct (serial_readline (ser st)); reflexivity. Qed.

(** ** The command exchange *)

Lemma next_read_after_write (d : bytes) (n : nat) (p : Serial) :
  fst (serial_read n (serial_write d p)) = fst (serial_read n p).
Proof. unfold serial_read, serial_write. cbn. destruct (incoming p); reflexivity. Qed.

Lemma next_read_with_stdout n o st : next_read n (with_stdout o st) = next_read n st.
Proof. reflexivity. Qed.

Lemma next_read_hd (n : nat) (st : MEMS_device) :
  next_read n st = firstn n (hd [] (incoming (ser st))).
Proof.
  unfold next_read, serial_read. destruct (incoming (ser st)); cbn;
    [rewrite firstn_nil|]; reflexivity.
Qed.

Lemma send_cmd_format_raise (cmd : Cmd) (e : Exn) n pr pc st :
  format_cmd cmd = Raise e -> _send_cmd cmd n pr pc st = (Raise e, st).
Proof. intros H. unfold _send_cmd, bind, lift. rewrite H. reflexivity. Qed.

Lemma send_cmd_return (cmd : Cmd) (d : bytes) (resp : str) n pr st :
  format_cmd cmd = Return d ->
  utf8_decode (next_read n st) = Some resp ->
  _send_cmd cmd n pr false st =
  (Return resp,
   if pr then with_stdout (stdout st ++ [[VStr (str_of "Response:"); VStr resp]])
               (after_exchange d n st)
   else after_exchange d n st).
Proof.
  intros Hf Hd. unfold _send_cmd, bind, lift, when, ser_write, sleep, ser_read,
    ret, print, decode. rewrite Hf. cbn [with_ser ser].
  unfold next_read in Hd. rewrite <- (next_read_after_write d) in Hd.
  unfold after_exchange.
  destruct (serial_read n (serial_write d (ser st))) as [raw p'].
  cbn [fst snd] in *. cbn [with_ser ser is_HV_on settings position stdout].
  rewrite Hd. destruct pr; reflexivity.
Qed.

Lemma send_cmd_undecodable (cmd : Cmd) (d : bytes) n pr st :
  format_cmd cmd = Return d ->
  utf8_decode (next_read n st) = None ->
  _send_cmd cmd n pr false st = (Raise UnicodeDecodeError, after_exchange d n st).
Proof.
  intros Hf Hd. unfold _send_cmd, bind, lift, when, ser_write, sleep, ser_read,
    ret, print, decode. rewrite Hf. cbn [with_ser ser].
  unfold next_read in Hd. rewrite <- (next_read_after_write d) in Hd.
  unfold after_exchange.
  destruct (serial_read n (serial_write d (ser st))) as [raw p'].
  cbn [fst snd] in *. cbn [with_ser ser is_HV_on settings position stdout].
  rewrite Hd. reflexivity.
Qed.

Lemma send_cmd_written (cmd : Cmd) (d : bytes) n pr pc st :
  format_cmd cmd = Return d ->
  written (ser (snd (_send_cmd cmd n pr pc st))) = written (ser st) ++ [d].
Proof.
  intros Hf. unfold _send_cmd, bind, lift, when, ser_write, sleep, ser_read,
    ret, print, decode. rewrite Hf.
  destruct pc; cbn [with_ser with_stdout ser is_HV_on settings position stdout];
    unfold serial_read, serial_write; cbn [incoming written name is_open];
    destruct (incoming (ser st)) as [|r rest];
    match goal with |- context [utf8_decode ?x] => destruct (utf8_decode x) end;
    destruct pr; reflexivity.
Qed.

Lemma exchange_commit {A} (u : str) (verbose : bool)
    (store : MEMS_device -> MEMS_device) (yes no : A) (st : MEMS_device) :
  forallb is_ascii u = true -> (3 < List.length u)%nat ->
  exists d,
    format_cmd (CmdStr u) = Return d /\
    (resp <- _send_cmd (CmdStr u) default_read_n_char verbose false ;;
     if str_eqb resp MTI_OK then modify store ;; ret yes else ret no) st
    = exchange_outcome d verbose store yes no st.
Proof.
  intros Hu Hlen. destruct (format_cmd_str_ascii u Hu Hlen) as [d Hd].
  exists d. split; [assumption|].
  unfold exchange_outcome, bind at 1.
  destruct (utf8_decode (next_read default_read_n_char st)) as [resp|] eqn:E.
  - rewrite (send_cmd_return _ d resp _ _ _ Hd E).
    unfold echo. destruct (str_eqb resp MTI_OK); destruct verbose; reflexivity.
  - rewrite (send_cmd_undecodable _ d _ _ _ Hd E). reflexivity.
Qed.

(** What one exchange that returns leaves on the transport. *)
Lemma exchange_outcome_frame {A} (d : bytes) (verbose : bool)
    (store : MEMS_device -> MEMS_device) (yes no : A) st r st' :
  exchange_outcome d verbose store yes no st = (Return r, st') ->
  (forall s0, ser (store s0) = ser s0) ->
  written (ser st') = written (ser st) ++ [d]
  /\ incoming (ser st') = tl (incoming (ser st))
  /\ is_open (ser st') = is_open (ser st).
Proof.
  intros H Hs. revert H. unfold exchange_outcome.
  destruct (utf8_decode _) as [resp|]; [|discriminate]. cbn zeta.
  assert (Hf : forall s0, ser (echo verbose resp s0) = ser s0)
    by (intros; destruct verbose; reflexivity).
  assert (Ha : written (ser (after_exchange d default_read_n_char st))
               = written (ser st) ++ [d]
               /\ incoming (ser (after_exchange d default_read_n_char st))
                  = tl (incoming (ser st))
               /\ is_open (ser (after_exchange d default_read_n_char st))
                  = is_open (ser st)).
  { unfold after_exchange, serial_read, serial_write.
    cbn [with_ser ser incoming written is_open name].
    destruct (incoming (ser st)); repeat split. }
  destruct (str_eqb resp MTI_OK); intros H; injection H as <- <-;
    rewrite ?Hs, Hf; exact Ha.
Qed.

Lemma exchange_outcome_flag {A} (d : bytes) (verbose : bool)
    (store : MEMS_device -> MEMS_device) (yes no : A) st r st' :
  exchange_outcome d verbose store yes no st = (Return r, st') ->
  (forall s0, is_HV_on (store s0) = is_HV_on s0) ->
  is_HV_on st' = is_HV_on st.
Proof.
  intros H Hs. revert H. unfold exchange_outcome.
  destruct (utf8_decode _) as [resp|]; [|discriminate]. cbn zeta.
  destruct (str_eqb resp MTI_OK); intros H; injection H as <- <-;
    rewrite ?Hs; destruct verbose; reflexivity.
Qed.

Lemma exchange_outcome_returns {A} (d : bytes) (verbose : bool)
    (store : MEMS_device -> MEMS_device) (yes no : A) st :
  utf8_decode (next_read default_read_n_char st) <> None ->
  exists r st', exchange_outcome d verbose store yes no st = (Return r, st').
Proof.
  intros H. unfold exchange_outcome.
  destruct (utf8_decode _) as [resp|]; [|contradiction]. cbn zeta.
  destruct (str_eqb resp MTI_OK); eauto.
Qed.

(** C8.  The format step maps [MTI+VB 10\r\n] and [MTI+VB 10] (and
    [MTI+VB 10\n\r]) to [MTI+VB 10\n], and that is the payload [_send_cmd]
    writes for them. *)
Theorem format_cmd_MTI_VB_10 :
  format_cmd (CmdStr (str_of ("MTI+VB 10" ++ CRLF)))
    = Return (bytes_of ("MTI+VB 10" ++ NL))
  /\ format_cmd (CmdStr (str_of "MTI+VB 10"))
    = Return (bytes_of ("MTI+VB 10" ++ NL))
  /\ format_cmd (CmdStr (str_of ("MTI+VB 10" ++ LFCR)))
    = Return (bytes_of ("MTI+VB 10" ++ NL))
  /\ (forall n pr pc st,
        written (ser (snd (_send_cmd (CmdStr (str_of ("MTI+VB 10" ++ CRLF)))
                             n pr pc st)))
        = written (ser st) ++ [bytes_of ("MTI+VB 10" ++ NL)])
  /\ (forall n pr pc st,
        written (ser (snd (_send_cmd (CmdStr (str_of "MTI+VB 10")) n pr pc st)))
        = written (ser st) ++ [bytes_of ("MTI+VB 10" ++ NL)]).
Proof.
  repeat split; try reflexivity; intros; apply send_cmd_written; reflexivity.
Qed.

(** C10.  The format step is not total: on the empty payload and on a
    payload that is only a line-ending pair, in either order, as text or as
    bytes, it raises [IndexError], and [_send_cmd] raises with it before
    anything is written or read. *)
Theorem format_cmd_not_total :
  (forall cmd,
     In cmd [CmdStr []; CmdBytes [];
             CmdStr (str_of CRLF); CmdBytes (bytes_of CRLF);
             CmdStr (str_of LFCR); CmdBytes (bytes_of LFCR)] ->
     format_cmd cmd = Raise IndexError
     /\ forall n pr pc st, _send_cmd cmd n pr pc st = (Raise IndexError, st))
  /\ exists cmd, forall d, format_cmd cmd <> Return d.
Proof.
  split.
  - intros cmd H. cbn [In] in H.
    assert (Hf : format_cmd cmd = Raise IndexError)
      by (repeat (destruct H as [<-|H]; [reflexivity|]); contradiction).
    split; [exact Hf|]. intros. apply send_cmd_format_raise. exact Hf.
  - exists (CmdStr []). intros d. discriminate.
Qed.

(** ** The parameter setters *)

Lemma token_cmd_ok (lit : string) (z : Z) :
  forallb is_ascii (str_of lit) = true -> (3 < List.length (str_of lit))%nat ->
  forallb is_ascii (str_of lit ++ str_int z) = true
  /\ (3 < List.length (str_of lit ++ str_int z))%nat.
Proof.
  intros Ha Hl. rewrite forallb_app, Ha, str_int_ascii, length_app.
  split; [reflexivity|lia].
Qed.


(** A setter that gets past its guards is one exchange. *)
Lemma setter_accepts (p : Param) (z : Z) (verbose : bool) (st : MEMS_device) :
  is_HV_on st = false -> in_bounds p z ->
  exists d o,
    setter p (VInt z) verbose st
    = exchange_outcome d verbose (store p z) true false (with_stdout o st).
Proof.
  intros Hhv Hz. unfold in_bounds in Hz.
  destruct p; cbn [setter range_lo range_hi] in *;
    match goal with |- context [?f (VInt z) verbose st] => unfold f end;
    unfold bind at 1; unfold get at 1; cbn beta iota; rewrite Hhv;
    cbn [as_int];
    match goal with |- context [(z <? ?a) || (?c <? z)] =>
      replace ((z <? a) || (c <? z)) with false
        by (symmetry; apply orb_false_intro; apply Z.ltb_ge; lia)
    end;
    unfold bind at 1;
    match goal with |- context [str_of ?lit ++ str_int z] =>
      destruct (token_cmd_ok lit z eq_refl) as [Ha Hl]; [unfold str_of; cbn; lia|]
    end;
    match goal with |- context [when verbose ?m st] =>
      destruct (when verbose m st) as [r st1] eqn:Hw
    end;
    (assert (Hst1 : r = Return tt /\ exists o, st1 = with_stdout o st)
      by (destruct verbose; cbn in Hw; injection Hw as <- <-;
          (split; [reflexivity|]);
          [eexists; reflexivity | exists (stdout st); destruct st; reflexivity]));
    destruct Hst1 as [-> [o ->]];
    match goal with |- context [store ?q z] =>
      match goal with |- context [_send_cmd (CmdStr ?u) _ _ _] =>
        destruct (exchange_commit u verbose (store q z) true false
                    (with_stdout o st) Ha Hl) as (d & _ & Hrun)
      end
    end;
    exists d, o; exact Hrun.
Qed.

(** A setter stopped by one of its guards prints and returns [False]. *)
Lemma setter_rejects (p : Param) (v : PyVal) (verbose : bool) (st : MEMS_device) :
  is_HV_on st = true \/ as_int v = None
  \/ (exists z, v = VInt z /\ ~ in_bounds p z) ->
  exists o, setter p v verbose st = (Return false, with_stdout o st).
Proof.
  intros H. unfold in_bounds in H.
  destruct p; cbn [setter range_lo range_hi] in *;
    match goal with |- context [?f v verbose st] => unfold f end;
    unfold bind at 1; unfold get at 1; cbn beta iota;
    (destruct (is_HV_on st) eqn:Hhv; [eexists; reflexivity|]);
    (destruct H as [H|[H|(z & -> & H)]]; [discriminate| |]);
    [ rewrite H; eexists; reflexivity
    | cbn [as_int];
      match goal with |- context [(z <? ?a) || (?c <? z)] =>
        replace ((z <? a) || (c <? z)) with true
          by (symmetry; apply orb_true_iff; rewrite !Z.ltb_lt; lia)
      end; eexists; reflexivity
    | rewrite H; eexists; reflexivity
    | cbn [as_int];
      match goal with |- context [(z <? ?a) || (?c <? z)] =>
        replace ((z <? a) || (c <? z)) with true
          by (symmetry; apply orb_true_iff; rewrite !Z.ltb_lt; lia)
      end; eexists; reflexivity
    | rewrite H; eexists; reflexivity
    | cbn [as_int];
      match goal with |- context [(z <? ?a) || (?c <? z)] =>
        replace ((z <? a) || (c <? z)) with true
          by (symmetry; apply orb_true_iff; rewrite !Z.ltb_lt; lia)
      end; eexists; reflexivity ].
Qed.

(** C1.  While high voltage is on, each of the three setters, whatever value
    it is given, returns [False], leaves the transport untouched (nothing is
    written and nothing is read) and leaves the cached settings as they
    were. *)
Theorem setters_refuse_while_HV_on
    (p : Param) (v : PyVal) (verbose : bool) (st : MEMS_device) :
  is_HV_on st = true ->
  exists st',
    setter p v verbose st = (Return false, st')
    /\ ser st' = ser st
    /\ settings st' = settings st.
Proof.
  intros Hhv. destruct (setter_rejects p v verbose st (or_introl Hhv)) as [o Ho].
  exists (with_stdout o st). auto.
Qed.

(** C1 at a session with high voltage on. *)
Lemma setters_refuse_while_HV_on_witness :
  exists st',
    set_Vbias (VInt 10) true (running []) = (Return false, st')
    /\ ser st' = ser (running [])
    /\ settings st' = settings (running []).
Proof.
  exact (setters_refuse_while_HV_on P_Vbias (VInt 10) true (running []) eq_refl).
Defined.



(** The case the third part of C3 leaves out: reply bytes that are not
    UTF-8.  [_send_cmd] raises [UnicodeDecodeError] on them, so the setter
    raises too, after the command has been written; the settings stay as
    they were. *)
Theorem setter_raises_on_undecodable_reply
    (p : Param) (z : Z) (verbose : bool) (st : MEMS_device) :
  is_HV_on st = false -> in_bounds p z ->
  utf8_decode (next_read default_read_n_char st) = None ->
  exists st',
    setter p (VInt z) verbose st = (Raise UnicodeDecodeError, st')
    /\ settings st' = settings st
    /\ List.length (written (ser st')) = S (List.length (written (ser st))).
Proof.
  intros Hhv Hz Hd.
  destruct (setter_accepts p z verbose st Hhv Hz) as (d & o & ->).
  unfold exchange_outcome. rewrite next_read_with_stdout, Hd.
  eexists. split; [reflexivity|]. split; [reflexivity|].
  unfold after_exchange, serial_read, serial_write.
  cbn [with_ser with_stdout ser incoming written].
  destruct (incoming (ser st)); cbn [snd written]; rewrite length_app; cbn; lia.
Qed.

(** [set_Vbias(10)] answered by the byte 0xFF. *)
Lemma setter_raises_on_undecodable_reply_witness :
  exists st',
    set_Vbias (VInt 10) true (idle [garbled]) = (Raise UnicodeDecodeError, st')
    /\ settings st' = no_settings
    /\ List.length (written (ser st')) = 1%nat.
Proof.
  apply (setter_raises_on_undecodable_reply P_Vbias 10 true (idle [garbled]));
    [reflexivity|unfold in_bounds; cbn; lia|reflexivity].
Defined.

(** C6.  [set_mirror_params] is the three setters run one after the other,
    each on the session the one before left, in the order [set_Vbias],
    [set_VdifferenceMax], [set_HardwareFilterBW]; a [False] from one does
    not stop the next.  Its result is [True] exactly when the three
    returned [True]. *)
Theorem set_mirror_params_runs_all_three
    (v1 v2 v3 : PyVal) (verbose : bool) (st : MEMS_device)
    (r1 r2 r3 : bool) (st1 st2 st3 : MEMS_device) :
  set_Vbias v1 true st = (Return r1, st1) ->
  set_VdifferenceMax v2 true st1 = (Return r2, st2) ->
  set_HardwareFilterBW v3 true st2 = (Return r3, st3) ->
  exists r,
    set_mirror_params v1 v2 v3 verbose st = (Return r, st3)
    /\ (r = true <-> r1 = true /\ r2 = true /\ r3 = true).
Proof.
  intros H1 H2 H3. unfold set_mirror_params, bind, ret.
  rewrite H1, H2, H3. eexists. split; [reflexivity|].
  destruct r1, r2, r3; cbn; intuition congruence.
Qed.

(** An out-of-range bias, then two values in range, each acknowledged. *)
Lemma set_mirror_params_runs_all_three_witness :
  exists r st3,
    set_mirror_params (VInt 500) (VInt 150) (VInt 1000) true
      (idle [OK_bytes; OK_bytes]) = (Return r, st3)
    /\ (r = true <-> false = true /\ true = true /\ true = true)
    /\ settings st3 = mkSettings None (Some 150) (Some 1000)
    /\ written (ser st3)
       = [bytes_of ("MTI+VD 150" ++ NL); bytes_of ("MTI+BW 1000" ++ NL)].
Proof.
  destruct (set_mirror_params_runs_all_three (VInt 500) (VInt 150) (VInt 1000)
              true (idle [OK_bytes; OK_bytes]) false true true
              (snd (set_Vbias (VInt 500) true (idle [OK_bytes; OK_bytes])))
              (snd (set_VdifferenceMax (VInt 150) true
                      (snd (set_Vbias (VInt 500) true (idle [OK_bytes; OK_bytes])))))
              (snd (set_HardwareFilterBW (VInt 1000) true
                      (snd (set_VdifferenceMax (VInt 150) true
                              (snd (set_Vbias (VInt 500) true
                                      (idle [OK_bytes; OK_bytes])))))))
              eq_refl eq_refl eq_refl) as (r & H1 & H2).
  exists r. eexists. split; [exact H1|]. split; [exact H2|].
  split; reflexivity.
Defined.

(** ** High voltage *)

Lemma missing_or_all_set (c : Settings) :
  existsb is_None [Vbias c; VdifferenceMax c; HardwareFilterBW c] = true
  <-> (Vbias c = None \/ VdifferenceMax c = None \/ HardwareFilterBW c = None).
Proof.
  destruct c as [[?|] [?|] [?|]]; cbn; split; intros H; try reflexivity;
    try discriminate; try tauto;
    destruct H as [H|[H|H]]; discriminate.
Qed.

Lemma get_mirror_params_quiet (st : MEMS_device) :
  get_mirror_params false st
  = (Return (Vbias (settings st), VdifferenceMax (settings st),
             HardwareFilterBW (settings st)), st).
Proof. reflexivity. Qed.

Lemma HV_on_missing (verbose : bool) (st : MEMS_device) :
  existsb is_None [Vbias (settings st); VdifferenceMax (settings st);
                   HardwareFilterBW (settings st)] = true ->
  exists o, HV_on verbose st = (Return false, with_stdout o st).
Proof.
  intros H. unfold HV_on, bind at 1. rewrite get_mirror_params_quiet.
  cbn beta iota. rewrite H. eexists. reflexivity.
Qed.

Lemma HV_on_ready (verbose : bool) (st : MEMS_device) :
  existsb is_None [Vbias (settings st); VdifferenceMax (settings st);
                   HardwareFilterBW (settings st)] = false ->
  exists d o,
    HV_on verbose st
    = exchange_outcome d verbose (with_HV true) true false (with_stdout o st).
Proof.
  intros H. unfold HV_on, bind at 1. rewrite get_mirror_params_quiet.
  cbn beta iota. rewrite H. unfold bind at 1, print at 1.
  destruct (exchange_commit (str_of ("MTI+EN" ++ NL)) verbose (with_HV true) true
              false (with_stdout (stdout st ++
                 [[VStr (str_of "Turning High Voltage on")]]) st) eq_refl)
    as (d & _ & Hrun); [unfold str_of; cbn; lia|].
  eexists d, _. exact Hrun.
Qed.

(** C2.  [HV_on] returns [False], without touching the flag or the
    transport, whenever one of the three cached settings is [None].  From a
    session with the flag off, the flag is on afterwards exactly when all
    three settings are set and the reply is the acknowledgement
    [MTI-OK\r\n]; [HV_on] returns [True] exactly then.  In every other
    case, an exception included, the flag stays off. *)
Theorem HV_on_requires_settings_and_ack (verbose : bool) (st : MEMS_device) :
  ((Vbias (settings st) = None \/ VdifferenceMax (settings st) = None
    \/ HardwareFilterBW (settings st) = None) ->
   exists st',
     HV_on verbose st = (Return false, st')
     /\ is_HV_on st' = is_HV_on st
     /\ ser st' = ser st)
  /\ (is_HV_on st = false ->
      forall r st', HV_on verbose st = (r, st') ->
        (is_HV_on st' = true <->
           all_set (settings st)
           /\ next_read default_read_n_char st = OK_bytes)
        /\ (r = Return true <-> is_HV_on st' = true)).
Proof.
  split.
  - intros H. apply missing_or_all_set in H.
    destruct (HV_on_missing verbose st H) as [o ->].
    eexists. repeat split.
  - intros Hhv r st' Hrun.
    destruct (existsb is_None [Vbias (settings st); VdifferenceMax (settings st);
                               HardwareFilterBW (settings st)]) eqn:E.
    + destruct (HV_on_missing verbose st E) as [o Ho]. rewrite Ho in Hrun.
      injection Hrun as <- <-. cbn [is_HV_on with_stdout]. rewrite Hhv.
      apply missing_or_all_set in E. unfold all_set.
      split; split; intros H; try discriminate.
      destruct H as [(H1 & H2 & H3) _]. tauto.
    + destruct (HV_on_ready verbose st E) as (d & o & Ho). rewrite Ho in Hrun.
      assert (Hall : all_set (settings st)).
      { unfold all_set. destruct (settings st) as [[?|] [?|] [?|]];
          cbn in E; try discriminate; repeat split; discriminate. }
      unfold exchange_outcome in Hrun. rewrite next_read_with_stdout in Hrun.
      destruct (utf8_decode (next_read default_read_n_char st)) as [resp|] eqn:Hd.
      * cbn zeta in Hrun. destruct (str_eqb resp MTI_OK) eqn:Heq;
          injection Hrun as <- <-.
        -- apply str_eqb_eq in Heq. subst resp. apply utf8_decode_OK_inv in Hd.
           cbn. split; split; auto.
        -- apply str_eqb_neq in Heq.
           assert (Hst : is_HV_on (echo verbose resp
                      (after_exchange d default_read_n_char (with_stdout o st)))
                    = false) by (destruct verbose; exact Hhv).
           rewrite Hst. split; split; intros H; try discriminate.
           destruct H as [_ H]. rewrite H, decode_OK_bytes in Hd.
           injection Hd as <-. congruence.
      * injection Hrun as <- <-. cbn. rewrite Hhv.
        split; split; intros H; try discriminate.
        destruct H as [_ H]. rewrite H, decode_OK_bytes in Hd. discriminate.
Qed.

(** C2 at a session with nothing set, and at one with all three set. *)
Lemma HV_on_requires_settings_and_ack_witness :
  (exists st',
     HV_on true (idle [OK_bytes]) = (Return false, st')
     /\ is_HV_on st' = false
     /\ ser st' = ser (idle [OK_bytes]))
  /\ is_HV_on (snd (HV_on true (configured [OK_bytes]))) = true.
Proof.
  split.
  - apply (proj1 (HV_on_requires_settings_and_ack true (idle [OK_bytes]))).
    left. reflexivity.
  - destruct (proj2 (HV_on_requires_settings_and_ack true (configured [OK_bytes]))
                eq_refl _ _ (surjective_pairing _)) as [[_ H] _].
    apply H. split; [repeat split; discriminate|reflexivity].
Defined.

Lemma HV_off_run (st : MEMS_device) :
  HV_off false st
  = exchange_outcome (bytes_of ("MTI+DI" ++ NL)) false (with_HV false) true false st.
Proof.
  unfold HV_off. cbn [when]. unfold bind at 1, ret at 1.
  destruct (exchange_commit (str_of ("MTI+DI" ++ NL)) false (with_HV false) true
              false st eq_refl) as (d & Hd & Hrun); [unfold str_of; cbn; lia|].
  rewrite Hrun. f_equal. apply (format_cmd_det _ _ _ Hd). reflexivity.
Qed.

(** ** The mirror position *)

Lemma SFcompare_antisym (f1 f2 : spec_float) :
  SFcompare f2 f1 = option_map CompOpp (SFcompare f1 f2).
Proof.
  destruct f1 as [s1|s1| |s1 m1 e1], f2 as [s2|s2| |s2 m2 e2]; cbn;
    try reflexivity;
    try (destruct s1; reflexivity); try (destruct s2; reflexivity);
    try (destruct s1, s2; reflexivity).
  destruct s1, s2; try reflexivity; f_equal;
    rewrite (Z.compare_antisym e1 e2);
    destruct (e1 ?= e2); cbn; try reflexivity;
    rewrite !Pos.compare_cont_spec; cbn;
    rewrite (Pos.compare_antisym m1 m2); destruct (m1 ?= m2)%positive; reflexivity.
Qed.

Lemma SFleb_not_ltb (f1 f2 : spec_float) : SFleb f1 f2 = true -> SFltb f2 f1 = false.
Proof.
  unfold SFleb, SFltb. rewrite (SFcompare_antisym f1 f2).
  destruct (SFcompare f1 f2) as [[| |]|]; cbn; congruence.
Qed.

Lemma in_closed_range_accepted (x y : PyNum) :
  in_closed_range x = true -> in_closed_range y = true -> out_of_range x y = false.
Proof.
  unfold in_closed_range, out_of_range. intros Hx Hy.
  apply andb_prop in Hx as [Hx1 Hx2]. apply andb_prop in Hy as [Hy1 Hy2].
  assert (Hlt : forall n, ge_minus_one n = true -> lt_minus_one n = false).
  { intros [z|f] H; cbn in *; [apply Z.ltb_ge; apply Z.leb_le in H; lia|].
    apply SFleb_not_ltb. exact H. }
  assert (Hgt : forall n, le_one n = true -> gt_one n = false).
  { intros [z|f] H; cbn in *; [apply Z.ltb_ge; apply Z.leb_le in H; lia|].
    apply SFleb_not_ltb. exact H. }
  rewrite (Hlt x Hx1), (Hlt y Hy1), (Hgt x Hx2), (Hgt y Hy2). reflexivity.
Qed.

Lemma str_float_sample_ascii (f : spec_float) :
  forallb is_ascii (str_float_sample f) = true.
Proof.
  unfold str_float_sample.
  destruct (SFeqb f float_half); [reflexivity|].
  destruct (SFeqb f float_minus_half); [reflexivity|].
  destruct (SFeqb f float_three_halves); reflexivity.
Qed.

Lemma get_mirror_position_quiet (st : MEMS_device) :
  get_mirror_position false st
  = (Return (pos_x (position st), pos_y (position st)), st).
Proof. reflexivity. Qed.

Lemma recenter_run (str_float : spec_float -> str) (st : MEMS_device) :
  set_mirror_position str_float (NInt 0) (NInt 0) false st
  = exchange_outcome (bytes_of ("MTI+GT 0 0 0" ++ NL)) false
      (with_position centre) (VBool true) VNone st.
Proof.
  unfold set_mirror_position.
  change (lt_minus_one (NInt 0) || lt_minus_one (NInt 0) || gt_one (NInt 0)
          || gt_one (NInt 0)) with false. cbn iota.
  unfold bind at 1, get at 1. rewrite andb_false_r. cbn [when].
  unfold bind at 1, ret at 1. unfold bind at 1, ret at 1.
  match goal with |- context [_send_cmd (CmdStr ?u) _ _ _] =>
    destruct (exchange_commit u false (with_position centre) (VBool true) VNone
                st eq_refl) as (d & Hd & Hrun); [unfold str_of; cbn; lia|]
  end.
  etransitivity; [exact Hrun|]. f_equal. apply (format_cmd_det _ _ _ Hd).
  reflexivity.
Qed.

Section Position.

Variable str_float : spec_float -> str.

(** Python writes a float with digits, a sign, a point, an exponent
    letter, or as [nan] or [inf]: ASCII characters only. *)
Hypothesis str_float_ascii : forall f, forallb is_ascii (str_float f) = true.

Lemma str_num_ascii (x : PyNum) : forallb is_ascii (str_num str_float x) = true.
Proof. destruct x; cbn; [apply str_int_ascii|apply str_float_ascii]. Qed.

Lemma position_rejects (x y : PyNum) (verbose : bool) (st : MEMS_device) :
  out_of_range x y = true ->
  exists o,
    set_mirror_position str_float x y verbose st
    = (Return (VBool false), with_stdout o st).
Proof.
  intros H. unfold out_of_range in H. unfold set_mirror_position. rewrite H.
  eexists. reflexivity.
Qed.

Lemma position_accepts (x y : PyNum) (verbose : bool) (st : MEMS_device) :
  out_of_range x y = false ->
  exists d o,
    set_mirror_position str_float x y verbose st
    = exchange_outcome d verbose (with_position (mkPosition x y))
        (VBool true) VNone (with_stdout o st).
Proof.
  intros H. unfold out_of_range in H. unfold set_mirror_position. rewrite H.
  unfold bind at 1, get at 1. cbn beta iota.
  unfold bind at 1.
  match goal with |- context [when ?c ?m st] =>
    destruct (when c m st) as [r st1] eqn:Hw1;
    assert (H1 : r = Return tt /\ exists o, st1 = with_stdout o st)
      by (destruct c; cbn in Hw1; injection Hw1 as <- <-;
          (split; [reflexivity|]);
          [eexists; reflexivity | exists (stdout st); destruct st; reflexivity])
  end.
  destruct H1 as [-> [o1 ->]]. unfold bind at 1.
  match goal with |- context [when verbose ?m ?s] =>
    destruct (when verbose m s) as [r st2] eqn:Hw2;
    assert (H2 : r = Return tt /\ exists o, st2 = with_stdout o st)
      by (destruct verbose; cbn in Hw2; injection Hw2 as <- <-;
          (split; [reflexivity|]);
          [eexists; reflexivity | exists o1; reflexivity])
  end.
  destruct H2 as [-> [o2 ->]].
  match goal with |- context [_send_cmd (CmdStr ?u) _ _ _] =>
    destruct (exchange_commit u verbose (with_position (mkPosition x y))
                (VBool true) VNone (with_stdout o2 st)) as (d & _ & Hrun)
  end.
  - rewrite !forallb_app, !str_num_ascii. reflexivity.
  - rewrite length_app. unfold str_of at 1. cbn. lia.
  - exists d, o2. exact Hrun.
Qed.

(** C5.  [set_mirror_position(x, y)]:
    - when [x < -1], [y < -1], [x > 1] or [y > 1] it returns [False], with
      the cached position and the transport as they were;
    - for [x] and [y] in [-1 .. 1], a reply [MTI-OK\r\n] makes it return
      [True] and caches [(x, y)];
    - for [x] and [y] in [-1 .. 1], any other reply leaves the cached
      position as it was and the result is not [True]: it is [None] when
      the reply is text, and an exception otherwise. *)
Theorem set_mirror_position_bounds_and_commit
    (x y : PyNum) (verbose : bool) (st : MEMS_device) :
  ((lt_minus_one x = true \/ lt_minus_one y = true
    \/ gt_one x = true \/ gt_one y = true) ->
   exists st',
     set_mirror_position str_float x y verbose st = (Return (VBool false), st')
     /\ position st' = position st
     /\ ser st' = ser st)
  /\ (in_closed_range x = true -> in_closed_range y = true ->
      (next_read default_read_n_char st = OK_bytes ->
       exists st',
         set_mirror_position str_float x y verbose st = (Return (VBool true), st')
         /\ position st' = mkPosition x y)
      /\ (next_read default_read_n_char st <> OK_bytes ->
          forall r st',
            set_mirror_position str_float x y verbose st = (r, st') ->
            position st' = position st
            /\ r <> Return (VBool true)
            /\ (forall resp,
                  decode (next_read default_read_n_char st) = Return resp ->
                  r = Return VNone))).
Proof.
  split.
  - intros H.
    destruct (position_rejects x y verbose st) as [o ->].
    { unfold out_of_range. destruct H as [H|[H|[H|H]]]; rewrite H;
        rewrite ?orb_true_r; reflexivity. }
    eexists. repeat split.
  - intros Hx Hy.
    destruct (position_accepts x y verbose st
                (in_closed_range_accepted x y Hx Hy)) as (d & o & ->).
    unfold exchange_outcome. rewrite next_read_with_stdout. split.
    + intros Hr. rewrite Hr, decode_OK_bytes. cbn zeta.
      replace (str_eqb MTI_OK MTI_OK) with true
        by (symmetry; apply str_eqb_eq; reflexivity).
      eexists. split; reflexivity.
    + intros Hr r st' Hrun.
      destruct (utf8_decode (next_read default_read_n_char st)) as [resp|] eqn:Hd.
      * cbn zeta in Hrun. destruct (str_eqb resp MTI_OK) eqn:Heq.
        { apply str_eqb_eq in Heq. subst resp. apply utf8_decode_OK_inv in Hd.
          contradiction. }
        injection Hrun as <- <-. split; [destruct verbose; reflexivity|].
        split; [discriminate|]. reflexivity.
      * injection Hrun as <- <-. split; [reflexivity|].
        split; [discriminate|].
        intros resp H. unfold decode in H. rewrite Hd in H. discriminate.
Qed.


End Position.

(** C5 at (1.5, 0), at (1, -1) acknowledged, and at (0.5, -0.5) answered by
    an error. *)
Lemma set_mirror_position_bounds_and_commit_witness :
  (exists st',
     set_mirror_position str_float_sample (NFloat float_three_halves) (NInt 0)
       true (idle [OK_bytes]) = (Return (VBool false), st')
     /\ position st' = centre
     /\ ser st' = ser (idle [OK_bytes]))
  /\ (exists st',
        set_mirror_position str_float_sample (NInt 1) (NInt (-1)) true
          (idle [OK_bytes]) = (Return (VBool true), st')
        /\ position st' = mkPosition (NInt 1) (NInt (-1)))
  /\ (forall r st',
        set_mirror_position str_float_sample (NFloat float_half)
          (NFloat float_minus_half) true (idle [bytes_of "MTI-ERR"]) = (r, st') ->
        position st' = centre /\ r <> Return (VBool true)).
Proof.
  split; [|split].
  - apply (proj1 (set_mirror_position_bounds_and_commit str_float_sample
                    str_float_sample_ascii (NFloat float_three_halves) (NInt 0)
                    true (idle [OK_bytes]))).
    right. right. left. reflexivity.
  - apply (proj1 (proj2 (set_mirror_position_bounds_and_commit str_float_sample
                           str_float_sample_ascii (NInt 1) (NInt (-1)) true
                           (idle [OK_bytes])) eq_refl eq_refl)).
    reflexivity.
  - intros r st' H.
    destruct (proj2 (proj2 (set_mirror_position_bounds_and_commit
                              str_float_sample str_float_sample_ascii
                              (NFloat float_half) (NFloat float_minus_half) true
                              (idle [bytes_of "MTI-ERR"])) eq_refl eq_refl)
                ltac:(discriminate) r st' H) as (H1 & H2 & _).
    split; assumption.
Defined.


(** ** The exit sequence *)

Section Exit.

Variable str_float : spec_float -> str.

Lemma exit_safely_steps (verbose : bool) :
  exit_safely str_float verbose
  = (when verbose (print [VStr (str_of "Starting Exit Sequence")]) ;;
     p <- get_mirror_position false ;;
     let '(xpos, ypos) := p in
     recenter_step str_float verbose xpos ypos ;;
     hv <- get is_HV_on ;;
     disable_step verbose hv ;;
     logout_step verbose).
Proof. reflexivity. Qed.

Lemma recenter_step_inv (verbose : bool) (x y : PyNum) (st st' : MEMS_device) :
  recenter_step str_float verbose x y st = (Return tt, st') ->
  same_port st st'
    (if ne_zero x || ne_zero y then [bytes_of ("MTI+GT 0 0 0" ++ NL)] else [])
    (if ne_zero x || ne_zero y then 1 else 0)
  /\ is_HV_on st' = is_HV_on st.
Proof.
  unfold recenter_step, same_port. destruct (ne_zero x || ne_zero y); intros H.
  - apply bind_inv in H as ([] & t1 & T1 & H).
    destruct (when_print verbose [VStr (str_of "Returning to position [0,0]")] st)
      as [o1 Ho1].
    rewrite Ho1 in T1. injection T1 as <-.
    apply bind_inv in H as (did & t2 & T2 & H). rewrite recenter_run in T2.
    pose proof (exchange_outcome_frame _ _ _ _ _ _ _ _ T2 (fun _ => eq_refl))
      as (Fw & Fi & Fo).
    pose proof (exchange_outcome_flag _ _ _ _ _ _ _ _ T2 (fun _ => eq_refl)) as Fh.
    destruct (when_print (negb (truthy did))
                [VStr (str_of "Warning: could not return mirror to [0,0]")] t2)
      as [o3 Ho3].
    rewrite Ho3 in H. injection H as <-.
    cbn [with_stdout ser is_HV_on] in *. rewrite Fi.
    repeat split; assumption.
  - injection H as <-. rewrite app_nil_r. repeat split.
Qed.

Lemma recenter_step_returns (verbose : bool) (x y : PyNum) (st : MEMS_device) :
  (ne_zero x || ne_zero y = true ->
   utf8_decode (next_read default_read_n_char st) <> None) ->
  exists st', recenter_step str_float verbose x y st = (Return tt, st').
Proof.
  unfold recenter_step. destruct (ne_zero x || ne_zero y); intros H;
    [|eexists; reflexivity].
  destruct (when_print verbose [VStr (str_of "Returning to position [0,0]")] st)
    as [o1 Ho1].
  rewrite (bind_run _ _ _ _ _ Ho1).
  destruct (exchange_outcome_returns (bytes_of ("MTI+GT 0 0 0" ++ NL)) false
              (with_position centre) (VBool true) VNone (with_stdout o1 st)
              (H eq_refl)) as (did & t2 & T2).
  rewrite <- (recenter_run str_float) in T2. rewrite (bind_run _ _ _ _ _ T2).
  destruct (when_print (negb (truthy did))
              [VStr (str_of "Warning: could not return mirror to [0,0]")] t2)
    as [o3 Ho3].
  eexists. exact Ho3.
Qed.

Lemma disable_step_inv (verbose hv : bool) (st st' : MEMS_device) :
  disable_step verbose hv st = (Return tt, st') ->
  same_port st st' (if hv then [bytes_of ("MTI+DI" ++ NL)] else [])
    (if hv then 1 else 0).
Proof.
  unfold disable_step, same_port. destruct hv; intros H.
  - apply bind_inv in H as ([] & t1 & T1 & H).
    destruct (when_print verbose [VStr (str_of "Turning HV off")] st) as [o1 Ho1].
    rewrite Ho1 in T1. injection T1 as <-.
    apply bind_inv in H as (did & t2 & T2 & H). rewrite HV_off_run in T2.
    pose proof (exchange_outcome_frame _ _ _ _ _ _ _ _ T2 (fun _ => eq_refl))
      as (Fw & Fi & Fo).
    destruct (when_print (negb did)
                [VStr (str_of "Warning: could not turn HV off")] t2) as [o3 Ho3].
    rewrite Ho3 in H. injection H as <-.
    cbn [with_stdout ser] in *. rewrite Fi.
    repeat split; assumption.
  - injection H as <-. rewrite app_nil_r. repeat split.
Qed.

Lemma disable_step_returns (verbose hv : bool) (st : MEMS_device) :
  (hv = true -> utf8_decode (next_read default_read_n_char st) <> None) ->
  exists st', disable_step verbose hv st = (Return tt, st').
Proof.
  unfold disable_step. destruct hv; intros H; [|eexists; reflexivity].
  destruct (when_print verbose [VStr (str_of "Turning HV off")] st) as [o1 Ho1].
  rewrite (bind_run _ _ _ _ _ Ho1).
  destruct (exchange_outcome_returns (bytes_of ("MTI+DI" ++ NL)) false
              (with_HV false) true false (with_stdout o1 st) (H eq_refl))
    as (did & t2 & T2).
  rewrite <- HV_off_run in T2. rewrite (bind_run _ _ _ _ _ T2).
  destruct (when_print (negb did)
              [VStr (str_of "Warning: could not turn HV off")] t2) as [o3 Ho3].
  eexists. exact Ho3.
Qed.

Lemma logout_step_inv (verbose : bool) (st : MEMS_device) (r : bool)
    (st' : MEMS_device) :
  logout_step verbose st = (Return r, st') ->
  written (ser st') = written (ser st) ++ [bytes_of ("MTI+EX" ++ NL)]
  /\ (r = true <-> hd [] (incoming (ser st)) = MTI_EXIT)
  /\ is_open (ser st') = (if r then false else is_open (ser st)).
Proof.
  unfold logout_step. intros H.
  apply bind_inv in H as ([] & s1 & H1 & H).
  destruct (when_print verbose [VStr (str_of "Logging off:")] st) as [o1 Ho1].
  rewrite Ho1 in H1. injection H1 as <-.
  apply bind_inv in H as ([] & s2 & H2 & H).
  assert (E2 : s2 = with_ser (serial_write (bytes_of ("MTI+EX" ++ NL)) (ser st))
                      (with_stdout o1 st)) by exact (eq_sym (f_equal snd H2)).
  clear H2. subst s2.
  apply bind_inv in H as ([] & s3 & H3 & H).
  assert (E3 : s3 = with_ser (serial_write (bytes_of ("MTI+EX" ++ NL)) (ser st))
                      (with_stdout o1 st)) by exact (eq_sym (f_equal snd H3)).
  clear H3. subst s3.
  apply bind_inv in H as (response & s4 & H4 & H).
  rewrite ser_readline_run in H4.
  set (p2 := serial_write (bytes_of ("MTI+EX" ++ NL)) (ser st)) in *.
  change (ser (with_ser p2 (with_stdout o1 st))) with p2 in H4.
  assert (E4 : s4 = with_ser (snd (serial_readline p2))
                      (with_ser p2 (with_stdout o1 st)))
    by exact (eq_sym (f_equal snd H4)).
  assert (E4' : Return response = Return (fst (serial_readline p2)))
    by exact (eq_sym (f_equal fst H4)).
  clear H4. subst s4. assert (response = fst (serial_readline p2)) by congruence.
  clear E4'. subst response.
  assert (Hresp : fst (serial_readline p2) = hd [] (incoming (ser st)))
    by (subst p2; unfold serial_readline, serial_write; cbn [incoming];
        destruct (incoming (ser st)); reflexivity).
  assert (Hp : written (snd (serial_readline p2))
               = written (ser st) ++ [bytes_of ("MTI+EX" ++ NL)]
               /\ is_open (snd (serial_readline p2)) = is_open (ser st))
    by (subst p2; unfold serial_readline, serial_write; cbn [incoming];
        destruct (incoming (ser st)); split; reflexivity).
  destruct Hp as [Hw Ho].
  set (p3 := snd (serial_readline p2)) in *. rewrite Hresp in H.
  apply bind_inv in H as ([] & s5 & H5 & H).
  assert (F5 : ser s5 = p3).
  { destruct verbose; cbn [when] in H5.
    - apply bind_inv in H5 as (u & t1 & T1 & H5).
      apply ran in H5, T1. subst s5 t1. reflexivity.
    - apply ran in H5. subst s5. reflexivity. }
  destruct (bytes_eqb (hd [] (incoming (ser st))) MTI_EXIT) eqn:Heq.
  - apply bytes_eqb_eq in Heq.
    apply bind_inv in H as ([] & s6 & H6 & H).
    assert (E6 : s6 = with_ser (serial_close (ser s5)) s5)
      by exact (eq_sym (f_equal snd H6)).
    clear H6. subst s6.
    apply bind_inv in H as ([] & s7 & H7 & H).
    destruct (when_print verbose [VStr (str_of "Disconnection successful")]
                (with_ser (serial_close (ser s5)) s5)) as [o7 Ho7].
    rewrite Ho7 in H7.
    assert (E7 : s7 = with_stdout o7 (with_ser (serial_close (ser s5)) s5))
      by exact (eq_sym (f_equal snd H7)).
    clear H7. subst s7.
    assert (E : Return r = Return true) by exact (eq_sym (f_equal fst H)).
    assert (E' : st' = with_stdout o7 (with_ser (serial_close (ser s5)) s5))
      by exact (eq_sym (f_equal snd H)).
    assert (r = true) by congruence. subst r st'.
    cbn [with_stdout with_ser ser serial_close written is_open]. rewrite F5.
    repeat split; auto.
  - apply bytes_eqb_neq in Heq.
    apply bind_inv in H as ([] & s6 & H6 & H).
    apply bind_inv in H as ([] & s7 & H7 & H).
    assert (E : r = false /\ ser st' = ser s5).
    { split; [pose proof (f_equal fst H) as E; cbn in E; congruence|].
      apply ran in H, H7, H6. subst st' s7 s6. reflexivity. }
    destruct E as [-> E]. rewrite E, F5.
    repeat split; auto; intros; try discriminate; contradiction.
Qed.

Lemma logout_step_returns (verbose : bool) (st : MEMS_device) :
  (verbose = true -> utf8_decode (hd [] (incoming (ser st))) <> None) ->
  exists r st', logout_step verbose st = (Return r, st').
Proof.
  intros H. unfold logout_step.
  destruct (when_print verbose [VStr (str_of "Logging off:")] st) as [o1 Ho1].
  rewrite (bind_run _ _ _ _ _ Ho1).
  unfold bind at 1, ser_write at 1. cbv beta iota.
  unfold bind at 1, sleep at 1, ret at 1. cbv beta iota.
  rewrite (bind_run _ _ _ _ _ (ser_readline_run _)).
  change (ser (with_ser (serial_write (bytes_of ("MTI+EX" ++ NL))
                          (ser (with_stdout o1 st))) (with_stdout o1 st)))
    with (serial_write (bytes_of ("MTI+EX" ++ NL)) (ser st)).
  set (p2 := serial_write (bytes_of ("MTI+EX" ++ NL)) (ser st)).
  assert (Hresp : fst (serial_readline p2) = hd [] (incoming (ser st)))
    by (subst p2; unfold serial_readline, serial_write; cbn [incoming];
        destruct (incoming (ser st)); reflexivity).
  rewrite Hresp.
  match goal with |- context [bind (when verbose ?m) ?k ?s] => set (s4 := s) end.
  assert (Hw : exists s5,
             when verbose (u <- lift (decode (hd [] (incoming (ser st)))) ;;
                           print [VStr u]) s4 = (Return tt, s5)).
  { destruct verbose; [|eexists; reflexivity]. cbn [when].
    unfold decode, lift, bind, print.
    destruct (utf8_decode (hd [] (incoming (ser st)))) as [u|] eqn:E;
      [eexists; reflexivity|].
    exfalso. exact (H eq_refl eq_refl). }
  destruct Hw as [s5 Hw]. rewrite (bind_run _ _ _ _ _ Hw).
  destruct (bytes_eqb (hd [] (incoming (ser st))) MTI_EXIT).
  - unfold bind at 1, ser_close at 1. cbv beta iota.
    destruct (when_print verbose [VStr (str_of "Disconnection successful")]
                (with_ser (serial_close (ser s5)) s5)) as [o7 Ho7].
    rewrite (bind_run _ _ _ _ _ Ho7). eexists _, _. reflexivity.
  - eexists _, _. reflexivity.
Qed.

(** The exit sequence, whenever it returns: it has written its commands in
    order (the re-centre when the cached position is not (0, 0), the
    disable when high voltage is on, then the logout); it returns [True]
    exactly when the logout reply is [MTI-Device Exit Command Mode\r\n];
    and it closes the port exactly then, whatever the two earlier steps
    answered. *)
Theorem exit_safely_outcome (verbose : bool) (st : MEMS_device) (r : bool)
    (st' : MEMS_device) :
  exit_safely str_float verbose st = (Return r, st') ->
  written (ser st') = written (ser st) ++ exit_commands st
  /\ (r = true <-> logout_reply st = MTI_EXIT)
  /\ is_open (ser st') = (if r then false else is_open (ser st)).
Proof.
  rewrite exit_safely_steps. intros H.
  apply bind_inv in H as ([] & s1 & H1 & H).
  destruct (when_print verbose [VStr (str_of "Starting Exit Sequence")] st)
    as [o1 Ho1].
  rewrite Ho1 in H1. injection H1 as <-.
  apply bind_inv in H as ([xpos ypos] & s2 & H2 & H).
  change (get_mirror_position false (with_stdout o1 st))
    with (Return (pos_x (position st), pos_y (position st)), with_stdout o1 st)
    in H2.
  injection H2 as <- <- <-. cbn beta iota in H.
  apply bind_inv in H as ([] & s3 & H3 & H).
  apply recenter_step_inv in H3 as ((Fw3 & Fi3 & Fo3) & Fh3).
  fold (recenter_needed st) in Fw3, Fi3.
  apply bind_inv in H as (hv & s4 & H4 & H).
  unfold get in H4. injection H4 as <- <-.
  apply bind_inv in H as ([] & s5 & H5 & H).
  apply disable_step_inv in H5 as (Fw5 & Fi5 & Fo5). rewrite Fh3 in Fw5, Fi5.
  apply logout_step_inv in H as (Fw & Fr & Fo).
  cbn [with_stdout ser is_HV_on] in *.
  split; [|split].
  - rewrite Fw, Fw5, Fw3. unfold exit_commands. rewrite <- !app_assoc.
    reflexivity.
  - rewrite Fr, Fi5, Fi3, skipn_skipn, hd_skipn. unfold logout_reply, exit_commands.
    destruct (recenter_needed st), (is_HV_on st); reflexivity.
  - rewrite Fo, Fo5, Fo3. reflexivity.
Qed.

(** The exit sequence returns unless a reply it decodes is not text: the
    replies to the re-centre and to the disable, when those steps run, and
    the logout reply when [verbose] is set. *)
Theorem exit_safely_returns (verbose : bool) (st : MEMS_device) :
  (recenter_needed st = true ->
   utf8_decode (firstn default_read_n_char (nth 0 (incoming (ser st)) [])) <> None) ->
  (is_HV_on st = true ->
   utf8_decode (firstn default_read_n_char
                  (nth (if recenter_needed st then 1 else 0)
                     (incoming (ser st)) [])) <> None) ->
  (verbose = true -> utf8_decode (logout_reply st) <> None) ->
  exists r st', exit_safely str_float verbose st = (Return r, st').
Proof.
  intros Hc Hd Hl. rewrite exit_safely_steps.
  destruct (when_print verbose [VStr (str_of "Starting Exit Sequence")] st)
    as [o1 Ho1].
  rewrite (bind_run _ _ _ _ _ Ho1).
  rewrite (bind_run _ _ _ _ _ (get_mirror_position_quiet _)).
  cbn beta iota.
  change (position (with_stdout o1 st)) with (position st).
  destruct (recenter_step_returns verbose (pos_x (position st))
              (pos_y (position st)) (with_stdout o1 st)) as [s3 H3].
  { intros Hn. rewrite next_read_hd.
    change (ser (with_stdout o1 st)) with (ser st).
    rewrite <- (skipn_O (incoming (ser st))), hd_skipn. exact (Hc Hn). }
  rewrite (bind_run _ _ _ _ _ H3).
  apply recenter_step_inv in H3 as ((Fw3 & Fi3 & Fo3) & Fh3).
  fold (recenter_needed st) in Fw3, Fi3. cbn [with_stdout ser is_HV_on] in *.
  unfold bind at 1, get at 1. cbv beta iota.
  destruct (disable_step_returns verbose (is_HV_on s3) s3) as [s5 H5].
  { rewrite Fh3. intros Hn. rewrite next_read_hd, Fi3, hd_skipn. exact (Hd Hn). }
  rewrite (bind_run _ _ _ _ _ H5).
  apply disable_step_inv in H5 as (Fw5 & Fi5 & Fo5). rewrite Fh3 in Fw5, Fi5.
  apply logout_step_returns.
  intros Hv. rewrite Fi5, Fi3, skipn_skipn, hd_skipn.
  replace ((if is_HV_on st then 1 else 0) + (if recenter_needed st then 1 else 0))%nat
    with (List.length (exit_commands st) - 1)%nat
    by (unfold exit_commands; destruct (recenter_needed st), (is_HV_on st);
        reflexivity).
  exact (Hl Hv).
Qed.

End Exit.

(** C4, the failing input.  With the default [verbose=True], mirror
    centred, high voltage off and a logout reply that is not UTF-8 (the
    bytes [0xFF 0x0A]), [exit_safely] raises [UnicodeDecodeError] from the
    [print] of line 275: the port stays open, but nothing is returned.  With
    [verbose=False] the same session returns [False]. *)
Theorem exit_safely_raises_on_garbled_logout_reply (str_float : spec_float -> str) :
  (exists st',
     exit_safely str_float true (idle [garbled]) = (Raise UnicodeDecodeError, st')
     /\ is_open (ser st') = true
     /\ written (ser st') = [bytes_of ("MTI+EX" ++ NL)])
  /\ fst (exit_safely str_float false (idle [garbled])) = Return false.
Proof. split; [eexists; repeat split|]; reflexivity. Qed.

(** The scenario of the specification: mirror at (0.5, -0.5), high voltage
    on; the re-centre is acknowledged, the disable is not, the logout is. *)
Lemma exit_safely_outcome_witness :
  written (ser (snd (exit_safely str_float_sample true
                       (running [OK_bytes; bytes_of "MTI-ERR"; MTI_EXIT]))))
  = [bytes_of ("MTI+GT 0 0 0" ++ NL); bytes_of ("MTI+DI" ++ NL);
     bytes_of ("MTI+EX" ++ NL)]
  /\ is_open (ser (snd (exit_safely str_float_sample true
                          (running [OK_bytes; bytes_of "MTI-ERR"; MTI_EXIT]))))
     = false.
Proof.
  destruct (exit_safely_outcome str_float_sample true
              (running [OK_bytes; bytes_of "MTI-ERR"; MTI_EXIT]) true
              (snd (exit_safely str_float_sample true
                      (running [OK_bytes; bytes_of "MTI-ERR"; MTI_EXIT])))
              eq_refl) as (H1 & _ & H3).
  split; [exact H1|exact H3].
Defined.

Lemma exit_safely_returns_witness :
  exists r st',
    exit_safely str_float_sample true (running [OK_bytes; OK_bytes; MTI_EXIT])
    = (Return r, st').
Proof.
  apply (exit_safely_returns str_float_sample true
           (running [OK_bytes; OK_bytes; MTI_EXIT])); intros _; discriminate.
Defined.

(** ** Construction *)

Lemma sign_on_run (verbose : bool) (st : MEMS_device) :
  sign_on verbose st
  = let resp := hd [] (incoming (ser st)) in
    let st1 := with_ser (snd (serial_readline
                 (serial_write (bytes_of ("$MTI$" ++ NL)) (ser st)))) st in
    if bytes_eqb resp [] then
      (Return tt, with_stdout (stdout st ++ no_device_report (name (ser st))) st1)
    else if verbose && negb (bytes_eqb resp MTI_ALREADY) then
      match utf8_decode resp with
      | Some u => (Return tt, with_stdout (stdout st ++ [[VStr u]]) st1)
      | None => (Raise UnicodeDecodeError, st1)
      end
    else (Return tt, st1).
Proof.
  unfold sign_on. unfold bind at 1, ser_write at 1. cbv beta iota.
  unfold bind at 1, sleep at 1, ret at 1. cbv beta iota.
  rewrite (bind_run _ _ _ _ _ (ser_readline_run _)).
  change (ser (with_ser (serial_write (bytes_of ("$MTI$" ++ NL)) (ser st)) st))
    with (serial_write (bytes_of ("$MTI$" ++ NL)) (ser st)).
  assert (Hresp : fst (serial_readline (serial_write (bytes_of ("$MTI$" ++ NL))
                                          (ser st)))
                  = hd [] (incoming (ser st)))
    by (unfold serial_readline, serial_write; cbn [incoming];
        destruct (incoming (ser st)); reflexivity).
  rewrite Hresp. cbv zeta.
  destruct (bytes_eqb (hd [] (incoming (ser st))) []).
  - unfold no_device_report.
    assert (Hn : name (snd (serial_readline (serial_write
                   (bytes_of ("$MTI$" ++ NL)) (ser st)))) = name (ser st))
      by (unfold serial_readline, serial_write; cbn [incoming];
          destruct (incoming (ser st)); reflexivity).
    unfold bind, get, print. cbv beta iota.
    cbn [with_ser with_stdout ser stdout is_HV_on settings position].
    rewrite Hn, <- !app_assoc. reflexivity.
  - destruct (verbose && negb (bytes_eqb (hd [] (incoming (ser st))) MTI_ALREADY));
      [|reflexivity].
    unfold bind, lift, decode, print.
    destruct (utf8_decode (hd [] (incoming (ser st)))); reflexivity.
Qed.

(** What the constructor does with each sign-on reply: an empty reply is
    reported on the console and the session is constructed; the "already
    logged in" reply is accepted in silence; any other reply is accepted,
    and printed when [verbose] is set, provided it is text; a reply that is
    not text raises when [verbose] is set. *)
Theorem init_outcomes (port : Serial) (verbose : bool)
    (shared : Settings * Position) (console : list (list PyVal)) :
  let reply := hd [] (incoming port) in
  let run := __init__ port verbose shared console in
  let session := signed_on port shared console in
  (reply = [] ->
   run = (Return tt,
          with_stdout (console ++ no_device_report (name port)) session))
  /\ (reply = MTI_ALREADY -> run = (Return tt, session))
  /\ (reply <> [] -> reply <> MTI_ALREADY ->
      (verbose = false -> run = (Return tt, session))
      /\ (verbose = true -> forall u, utf8_decode reply = Some u ->
          run = (Return tt, with_stdout (console ++ [[VStr u]]) session))
      /\ (verbose = true -> utf8_decode reply = None ->
          run = (Raise UnicodeDecodeError, session))).
Proof.
  cbv zeta. unfold __init__, signed_on. rewrite sign_on_run. cbv zeta.
  cbn [ser stdout with_ser with_stdout is_HV_on settings position].
  split; [|split].
  - intros ->. reflexivity.
  - intros ->. destruct verbose; reflexivity.
  - intros H1 H2. apply bytes_eqb_neq in H1, H2. rewrite H1, H2.
    split; [|split].
    + intros ->. reflexivity.
    + intros -> u ->. reflexivity.
    + intros -> ->. reflexivity.
Qed.

Lemma init_outcomes_witness :
  __init__ (port0 []) true (no_settings, centre) []
  = (Return tt,
     with_stdout (no_device_report (str_of "/dev/ttyUSB0"))
       (signed_on (port0 []) (no_settings, centre) []))
  /\ __init__ (port0 [MTI_ALREADY]) true (no_settings, centre) []
     = (Return tt, signed_on (port0 [MTI_ALREADY]) (no_settings, centre) [])
  /\ __init__ (port0 [bytes_of ("MTI-Device Command Mode" ++ CRLF)]) true
       (no_settings, centre) []
     = (Return tt,
        with_stdout [[VStr (str_of ("MTI-Device Command Mode" ++ CRLF))]]
          (signed_on (port0 [bytes_of ("MTI-Device Command Mode" ++ CRLF)])
             (no_settings, centre) [])).
Proof.
  split; [|split].
  - exact (proj1 (init_outcomes (port0 []) true (no_settings, centre) []) eq_refl).
  - exact (proj1 (proj2 (init_outcomes (port0 [MTI_ALREADY]) true
                           (no_settings, centre) [])) eq_refl).
  - exact (proj1 (proj2 (proj2 (proj2 (init_outcomes
             (port0 [bytes_of ("MTI-Device Command Mode" ++ CRLF)]) true
             (no_settings, centre) []))
             ltac:(discriminate) ltac:(discriminate))) eq_refl _ eq_refl).
Defined.

(** C9, the failing input.  With the default [verbose=True] and a sign-on
    reply that is not UTF-8 (the bytes [0xFF 0x0A]), [__init__] raises
    [UnicodeDecodeError] from the [print] of line 51, and no session is
    constructed.  With [verbose=False] the same reply is accepted. *)
Theorem sign_on_raises_on_garbled_reply
    (shared : Settings * Position) (console : list (list PyVal)) :
  (exists st',
     __init__ (port0 [garbled]) true shared console
     = (Raise UnicodeDecodeError, st'))
  /\ fst (__init__ (port0 [garbled]) false shared console) = Return tt.
Proof. split; [eexists|]; reflexivity. Qed.
